(** * findDistribution: the scoped, faceted list query of the CRM

    A shallow embedding of [findDistribution] (the data-access function
    that lists distribution statements for a user or a team) together
    with the parts of its collaborators that decide what it returns:

    - the JavaScript string primitives it calls ([replace(/d$/, '')],
      [parseInt(_, 10)]) and the arithmetic of [Math.ceil(count / perPage)];
    - luxon's [DateTime.now().minus({ days }).startOf('day').toISO()],
      in a time zone whose offset may change;
    - PostgreSQL's [ILIKE], which [contains] with [mode: 'insensitive']
      is translated to;
    - the Prisma client: the [where] language the function builds, its
      evaluation on a row, [findMany], [count] and
      [team.findFirstOrThrow].

    The asynchronous calls are modelled in a small monad that records
    every storage call issued and carries the rejection of a promise.

    A string is a sequence of characters with codes below 256 (the
    first 256 code points of Unicode); ids are values of the INTEGER
    columns they are compared with. *)

From Stdlib Require Import ZArith List String Ascii Bool Lia.
From Stdlib Require Import Permutation Sorted.
Import ListNotations.

Set Warnings "-register-all".

Local Open Scope string_scope.
Local Open Scope list_scope.
Local Open Scope Z_scope.

(* ================================================================== *)
(** ** JavaScript values *)

Module Js.

(** [value ?? fallback] and default parameters: [None] is [undefined]. *)
Definition default {A} (d : A) (v : option A) : A :=
  match v with Some x => x | None => d end.

(** Truthiness of a string: only the empty string is falsy. *)
Definition truthy (s : string) : bool :=
  match s with EmptyString => false | String _ _ => true end.

(** Case folding of the letters A to Z. *)
Definition toLowerCase_ascii (c : ascii) : ascii :=
  let n := N_of_ascii c in
  if ((65 <=? n) && (n <=? 90))%N then ascii_of_N (n + 32) else c.

Fixpoint toLowerCase (s : string) : string :=
  match s with
  | EmptyString => EmptyString
  | String c t => String (toLowerCase_ascii c) (toLowerCase t)
  end.

(** [s.replace(/d$/, '')]: without the [m] flag [$] matches only at the
    very end of the input, so at most the last character goes. *)
Fixpoint replace_d_end (s : string) : string :=
  match s with
  | EmptyString => EmptyString
  | String c EmptyString => if Ascii.eqb c "d" then EmptyString else s
  | String c t => String c (replace_d_end t)
  end.

(** White space that [parseInt] skips: the members of
    StrWhiteSpaceChar below 256, which are TAB, LF, VT, FF, CR, SP
    and the no-break space U+00A0. *)
Definition isWhiteSpace (c : ascii) : bool :=
  let n := N_of_ascii c in
  (((9 <=? n) && (n <=? 13)) || (n =? 32) || (n =? 160))%N.

Fixpoint trimStart (s : string) : string :=
  match s with
  | EmptyString => EmptyString
  | String c t => if isWhiteSpace c then trimStart t else s
  end.

Definition digit (c : ascii) : option Z :=
  let n := N_of_ascii c in
  if ((48 <=? n) && (n <=? 57))%N then Some (Z.of_N (n - 48)) else None.

(** The longest prefix of decimal digits, read left to right;
    [None] when there is no digit at all. *)
Fixpoint digits (acc : option Z) (s : string) : option Z :=
  match s with
  | EmptyString => acc
  | String c t =>
      match digit c with
      | Some d => digits (Some (10 * default 0 acc + d)) t
      | None => acc
      end
  end.

(** [parseInt(s, 10)]; [None] is [NaN].  The result is the exact
    integer (doubles are exact below 2^53). *)
Definition parseInt (s : string) : option Z :=
  match trimStart s with
  | String "-" t => option_map Z.opp (digits None t)
  | String "+" t => digits None t
  | t => digits None t
  end.

(** The numbers [Math.ceil(a / b)] can yield on integer operands. *)
Inductive number : Type :=
| Int (z : Z)
| Infinity
| NegInfinity
| NaN.

(** [Math.ceil(a / b)] for integers [a] and [b]: IEEE division by zero
    gives an infinity or [NaN], otherwise the quotient is rounded up. *)
Definition Math_ceil_div (a b : Z) : number :=
  if b =? 0 then
    if a =? 0 then NaN else if 0 <? a then Infinity else NegInfinity
  else Int (- ((- a) / b)).

End Js.

(* ================================================================== *)
(** ** luxon *)

Module Luxon.

(** An instant [ts] (milliseconds since the epoch) seen in a time zone:
    [zone t] is the offset of the zone from UTC, in minutes, at the
    instant [t], and [o] is the offset this value was built with. *)
Record DateTime : Type := mkDateTime { ts : Z; o : Z; zone : Z -> Z }.

(** [DateTime.now()] at the instant [t] in the zone of the system. *)
Definition now (zone : Z -> Z) (t : Z) : DateTime := mkDateTime t (zone t) zone.

Definition msPerDay : Z := 86400000.

(** The wall-clock reading the value was built with, as milliseconds
    of a calendar without zones ([objToLocalTS(inst.c)]). *)
Definition localTS (dt : DateTime) : Z := ts dt + o dt * 60 * 1000.

(** [fixOffset(localTS, o, tz)]: the instant that reads [localTS] in
    the zone, starting from the guess that the offset is [o]; in a gap
    of the zone no instant does, and the later offset is kept. *)
Definition fixOffset (localTS o : Z) (tz : Z -> Z) : Z * Z :=
  let utcGuess := localTS - o * 60 * 1000 in
  let o2 := tz utcGuess in
  if o =? o2 then (utcGuess, o)
  else
    let utcGuess := utcGuess - (o2 - o) * 60 * 1000 in
    let o3 := tz utcGuess in
    if o2 =? o3 then (utcGuess, o2)
    else (localTS - Z.min o2 o3 * 60 * 1000, Z.max o2 o3).

(** [dt.minus({ days: n })] for an integer [n]: the calendar day moves,
    the time of day stays ([adjustTime]). *)
Definition minus_days (dt : DateTime) (n : Z) : DateTime :=
  let '(ts', o') := fixOffset (localTS dt - n * msPerDay) (o dt) (zone dt) in
  mkDateTime ts' o' (zone dt).

(** [dt.startOf('day')]: the time of day is set to midnight. *)
Definition startOf_day (dt : DateTime) : DateTime :=
  let '(ts', o') :=
    fixOffset (localTS dt / msPerDay * msPerDay) (o dt) (zone dt) in
  mkDateTime ts' o' (zone dt).

(** The first millisecond of the years 0 and 10000 of the calendar. *)
Definition year0 : Z := -62167219200000.
Definition year10000 : Z := 253402300800000.

(** [dt.toISO()] as the database reads it: the instant, when the string
    is a date the Prisma client accepts.  For a year outside 0..9999
    luxon writes a signed year of six digits (and [null] beyond the
    range of dates), and the client rejects the query: [None]. *)
Definition toISO (dt : DateTime) : option Z :=
  if (year0 <=? localTS dt) && (localTS dt <? year10000)
  then Some (ts dt) else None.

(** The reading of a clock on the wall of the zone at the instant of
    [dt]. *)
Definition wall_clock (dt : DateTime) : Z :=
  ts dt + zone dt (ts dt) * 60 * 1000.

(** Whether [fixOffset] ends in its last case, the gap. *)
Definition in_gap (localTS o : Z) (tz : Z -> Z) : bool :=
  let o2 := tz (localTS - o * 60 * 1000) in
  negb (o =? o2) && negb (o2 =? tz (localTS - o2 * 60 * 1000)).

End Luxon.

(* ================================================================== *)
(** ** PostgreSQL text matching *)

Module Pg.

(** [lower] on one character under a UTF-8 locale: the letters A to Z
    and the capital letters of U+00C0..U+00DE (all but the
    multiplication sign U+00D7) go to their small letter. *)
Definition lower_char (c : ascii) : ascii :=
  let n := N_of_ascii c in
  if (((65 <=? n) && (n <=? 90))
      || ((192 <=? n) && (n <=? 222) && negb (n =? 215)))%N
  then ascii_of_N (n + 32) else c.

Fixpoint lower (s : string) : string :=
  match s with
  | EmptyString => EmptyString
  | String c t => String (lower_char c) (lower t)
  end.

(** The elements of a LIKE pattern. *)
Inductive token : Type :=
| any_string            (* % *)
| any_char              (* _ *)
| literal (c : ascii).

(** Reading a pattern: a backslash takes the next character literally;
    a pattern that ends in a lone backslash is an error ([None]). *)
Fixpoint tokens (p : string) : option (list token) :=
  match p with
  | EmptyString => Some []
  | String c p' =>
      if Ascii.eqb c "\" then
        match p' with
        | EmptyString => None
        | String d p'' => option_map (cons (literal d)) (tokens p'')
        end
      else
        option_map
          (cons (if Ascii.eqb c "%" then any_string
                 else if Ascii.eqb c "_" then any_char
                 else literal c))
          (tokens p')
  end.

(** Whether the whole of [s] matches the pattern. *)
Fixpoint like (p : list token) (s : string) {struct p} : bool :=
  match p with
  | [] => match s with EmptyString => true | String _ _ => false end
  | any_string :: p' =>
      (fix skip (s : string) : bool :=
         like p' s ||
         match s with
         | EmptyString => false
         | String _ s' => skip s'
         end) s
  | any_char :: p' =>
      match s with
      | EmptyString => false
      | String _ s' => like p' s'
      end
  | literal c :: p' =>
      match s with
      | EmptyString => false
      | String d s' => Ascii.eqb c d && like p' s'
      end
  end.

(** The pattern that matches the text [s] and nothing else. *)
Fixpoint literals (s : string) : list token :=
  match s with
  | EmptyString => []
  | String c t => literal c :: literals t
  end.

(** [s ILIKE p]: both sides are folded, then matched; [None] when the
    pattern is in error. *)
Definition ilike (s p : string) : option bool :=
  option_map (fun ts => like ts (lower s)) (tokens (lower p)).

(** The pattern the client sends for [contains: q]: the operand
    between two [%], not escaped. *)
Definition contains_pattern (q : string) : string := "%" ++ q ++ "%".

End Pg.

(* ================================================================== *)
(** ** The database schema *)

Module User.
Record t : Type := mk { id : Z; email : string }.
End User.

Module TeamEmail.
Record t : Type := mk { email : string }.
End TeamEmail.

Module TeamMember.
Record t : Type := mk { userId : Z; role : string }.
End TeamMember.

Module Team.
Record t : Type := mk {
  id : Z;
  teamEmail : option TeamEmail.t;
  members : list TeamMember.t
}.
End Team.

(** What [team.findFirstOrThrow] returns with
    [include: { teamEmail: true,
                members: { where: { userId }, select: { role: true } } }]. *)
Module TeamPayload.
Record t : Type := mk {
  id : Z;
  teamEmail : option TeamEmail.t;
  members : list string
}.
End TeamPayload.

Module DistributionStatementMusicPlatforms.
Record t : Type := mk { platformId : Z }.
End DistributionStatementMusicPlatforms.

Module DistributionStatementTerritories.
Record t : Type := mk { territoryId : Z }.
End DistributionStatementTerritories.

(** The text columns of a distribution statement that the search reads. *)
Inductive TextField : Type :=
| proyecto
| isrc
| marketingOwner
| nombreDistribucion
| numeroDeCatalogo
| tituloCatalogo
| tipoDeIngreso.

Module DistributionStatement.
(** A row together with its two association collections.  [None] is
    SQL [NULL]. *)
Record t : Type := mk {
  id : Z;
  userId : option Z;
  teamId : option Z;
  createdAt : Z;
  text : TextField -> option string;
  distributionStatementMusicPlatforms :
    list DistributionStatementMusicPlatforms.t;
  distributionStatementTerritories :
    list DistributionStatementTerritories.t
}.
End DistributionStatement.

(** The tables, and how the database settles ties.  PostgreSQL leaves
    the order of rows with equal sort keys open, and it may change from
    one LIMIT/OFFSET query to the next: [tiebreak skip take] ranks the
    rows the way the database happens to for the listing with that
    [skip] and [take]; rows of equal rank come in the order of the
    table. *)
Record Database : Type := mkDatabase {
  users : list User.t;
  teams : list Team.t;
  distributionStatements : list DistributionStatement.t;
  tiebreak : Z -> Z -> DistributionStatement.t -> Z
}.

(* ================================================================== *)
(** ** The Prisma client *)

Module Prisma.

(** The fragment of [Prisma.DistributionStatementWhereInput] the
    function builds.  An object literal is the list of its keys, all
    of which must hold; [AND: { ... }] with a single object is [AND]
    of a one-element list. *)
Inductive WhereInput : Type :=
| Obj (keys : list WhereInput)
| AND (ws : list WhereInput)
| OR (ws : list WhereInput)
| userId_eq (v : Z)                         (* userId: v *)
| teamId_eq (v : option Z)                  (* teamId: v, teamId: null *)
| user_email_eq (e : string)                (* user: { email: e } *)
| contains_insensitive (f : TextField) (q : option string)
    (* f: { contains: q, mode: 'insensitive' } *)
| platforms_some_in (ids : list Z)
    (* distributionStatementMusicPlatforms:
         { some: { platformId: { in: ids } } } *)
| territories_some_in (ids : list Z)
    (* distributionStatementTerritories:
         { some: { territoryId: { in: ids } } } *)
| createdAt_gte (t : option Z).
    (* createdAt: { gte: t }, [None] for an operand that is no date *)

(** [{ ...w }]: the spread of [undefined] is the empty object. *)
Definition spread (w : option WhereInput) : WhereInput :=
  match w with Some w => w | None => Obj [] end.

(** [w.key = value] for a key the object does not have yet. *)
Definition assign (w : WhereInput) (k : WhereInput) : WhereInput :=
  match w with
  | Obj keys => Obj (keys ++ [k])
  | _ => Obj [w; k]
  end.

Definition Z_mem (x : Z) (l : list Z) : bool := existsb (Z.eqb x) l.

Definition option_Z_eqb (a b : option Z) : bool :=
  match a, b with
  | Some x, Some y => x =? y
  | None, None => true
  | _, _ => false
  end.

(** The [user] relation of a row: the user its [userId] points to. *)
Definition user (us : list User.t) (r : DistributionStatement.t)
  : option User.t :=
  match DistributionStatement.userId r with
  | Some u => find (fun x => User.id x =? u) us
  | None => None
  end.

(** Whether the client accepts a filter: every operand of [gte] is a
    date. *)
Fixpoint valid (w : WhereInput) : bool :=
  match w with
  | Obj keys => forallb valid keys
  | AND ws => forallb valid ws
  | OR ws => forallb valid ws
  | createdAt_gte None => false
  | _ => true
  end.

(** [contains: q] with [mode: 'insensitive'] on a value [s] of the
    column: [s ILIKE '%q%'].  A pattern of this form is never in
    error. *)
Definition contains (q s : string) : bool :=
  match Pg.ilike s (Pg.contains_pattern q) with
  | Some b => b
  | None => false
  end.

(** Whether a row satisfies a filter.  A [NULL] column contains
    nothing.  An [undefined] operand is dropped by the client, and the
    entry is read here as no constraint on the column. *)
Fixpoint matches (us : list User.t) (w : WhereInput)
         (r : DistributionStatement.t) : bool :=
  match w with
  | Obj keys => forallb (fun k => matches us k r) keys
  | AND ws => forallb (fun k => matches us k r) ws
  | OR ws => existsb (fun k => matches us k r) ws
  | userId_eq v => option_Z_eqb (DistributionStatement.userId r) (Some v)
  | teamId_eq v => option_Z_eqb (DistributionStatement.teamId r) v
  | user_email_eq e =>
      match user us r with
      | Some u => String.eqb (User.email u) e
      | None => false
      end
  | contains_insensitive f None => true
  | contains_insensitive f (Some q) =>
      match DistributionStatement.text r f with
      | Some s => contains q s
      | None => false
      end
  | platforms_some_in ids =>
      existsb
        (fun a => Z_mem (DistributionStatementMusicPlatforms.platformId a) ids)
        (DistributionStatement.distributionStatementMusicPlatforms r)
  | territories_some_in ids =>
      existsb
        (fun a => Z_mem (DistributionStatementTerritories.territoryId a) ids)
        (DistributionStatement.distributionStatementTerritories r)
  | createdAt_gte (Some t) => t <=? DistributionStatement.createdAt r
  | createdAt_gte None => false
  end.

(** Columns a listing can be ordered by, and the two directions.  The
    model keeps the two numeric columns; the order of a listing decides
    which rows fall on a page, never which rows pass the filter. *)
Inductive Column : Type := col_id | col_createdAt.
Inductive Direction : Type := asc | desc.

Definition column_value (c : Column) (r : DistributionStatement.t) : Z :=
  match c with
  | col_id => DistributionStatement.id r
  | col_createdAt => DistributionStatement.createdAt r
  end.

Definition precedes (c : Column) (d : Direction)
           (a b : DistributionStatement.t) : bool :=
  match d with
  | asc => column_value c a <=? column_value c b
  | desc => column_value c b <=? column_value c a
  end.

(** The order the database sorts by: the column first, its own ranking
    among rows that are equal in the column. *)
Definition precedes_tb (c : Column) (d : Direction)
           (tb : DistributionStatement.t -> Z)
           (a b : DistributionStatement.t) : bool :=
  precedes c d a b && (negb (precedes c d b a) || (tb a <=? tb b)).

Fixpoint insert_row (c : Column) (d : Direction)
         (tb : DistributionStatement.t -> Z)
         (x : DistributionStatement.t) (l : list DistributionStatement.t)
  : list DistributionStatement.t :=
  match l with
  | [] => [x]
  | y :: t =>
      if precedes_tb c d tb x y then x :: l else y :: insert_row c d tb x t
  end.

(** [orderBy: { [c]: d }] with the ranking [tb] for ties. *)
Definition order_rows (c : Column) (d : Direction)
           (tb : DistributionStatement.t -> Z)
           (l : list DistributionStatement.t) : list DistributionStatement.t :=
  fold_right (insert_row c d tb) [] l.

Inductive Error : Type :=
| NotFoundError                 (* findFirstOrThrow found no row *)
| PrismaClientValidationError   (* a negative [skip], a [gte] that is no date *)
| InvalidArgumentError.         (* luxon: a duration unit that is NaN *)

(** [prisma.distributionStatement.findMany({ where, skip, take, orderBy })].
    A negative [take] pages backwards from the end of the listing. *)
Definition distributionStatement_findMany (db : Database) (w : WhereInput) (skip take : Z)
           (c : Column) (d : Direction)
  : Error + list DistributionStatement.t :=
  if negb (valid w) || (skip <? 0) then inl PrismaClientValidationError
  else
    let rows :=
      order_rows c d (tiebreak db skip take)
                 (filter (matches (users db) w) (distributionStatements db)) in
    inr (if 0 <=? take
         then firstn (Z.to_nat take) (skipn (Z.to_nat skip) rows)
         else rev (firstn (Z.to_nat (- take))
                          (skipn (Z.to_nat skip) (rev rows)))).

(** [prisma.distributionStatement.count({ where })] *)
Definition distributionStatement_count (db : Database) (w : WhereInput)
  : Error + Z :=
  if valid w
  then inr (Z.of_nat (List.length (filter (matches (users db) w)
                                          (distributionStatements db))))
  else inl PrismaClientValidationError.

Definition is_member (userId : Z) (t : Team.t) : bool :=
  existsb (fun m => TeamMember.userId m =? userId) (Team.members t).

(** [prisma.team.findFirstOrThrow({ where: { id: teamId,
      members: { some: { userId } } }, include: ... })] *)
Definition team_findFirstOrThrow (db : Database) (teamId userId : Z)
  : Error + TeamPayload.t :=
  match find (fun t => (Team.id t =? teamId) && is_member userId t) (teams db) with
  | Some t =>
      inr (TeamPayload.mk
             (Team.id t) (Team.teamEmail t)
             (map TeamMember.role
                  (filter (fun m => TeamMember.userId m =? userId) (Team.members t))))
  | None => inl NotFoundError
  end.

(** A call made to the client of the storage layer. *)
Inductive Call : Type :=
| call_team_findFirstOrThrow (teamId userId : Z)
| call_findMany (w : WhereInput) (skip take : Z) (c : Column) (d : Direction)
| call_count (w : WhereInput).

End Prisma.

(* ================================================================== *)
(** ** Asynchronous storage calls *)

(** A computation yields the storage calls it issued, in order, and
    either the error it was rejected with or its value. *)
Definition M (A : Type) : Type := (list Prisma.Call * (Prisma.Error + A))%type.

Definition ret {A} (a : A) : M A := ([], inr a).

Definition throw {A} (e : Prisma.Error) : M A := ([], inl e).

(** [await m] followed by [f]: a rejection of [m] skips [f]. *)
Definition bind {A B} (m : M A) (f : A -> M B) : M B :=
  match m with
  | (l, inl e) => (l, inl e)
  | (l, inr a) => let '(l', r) := f a in (l ++ l', r)
  end.

Notation "x <- m ;; k" := (bind m (fun x => k))
  (at level 61, m at next level, right associativity).

(** One call to the storage layer and its outcome. *)
Definition issue {A} (c : Prisma.Call) (r : Prisma.Error + A) : M A := ([c], r).

(** [Promise.all([a, b])]: both calls are issued; the result is the
    pair of values, or the rejection of the first that fails. *)
Definition Promise_all {A B} (a : M A) (b : M B) : M (A * B) :=
  (fst a ++ fst b,
   match snd a, snd b with
   | inr x, inr y => inr (x, y)
   | inl e, _ => inl e
   | _, inl e => inl e
   end).

(* ================================================================== *)
(** ** findDistribution *)

(** [PeriodSelectorValue = '' | '7d' | '14d' | '30d'], a type of the
    compiler only: at run time a period is a string. *)
Definition PeriodSelectorValue (s : string) : Prop :=
  s = "" \/ s = "7d" \/ s = "14d" \/ s = "30d".

Record OrderBy : Type := mkOrderBy {
  column : Prisma.Column;
  direction : Prisma.Direction
}.

Record FindReleaseOptions : Type := mkOptions {
  userId : Z;
  teamId : option Z;
  page : option Z;
  perPage : option Z;
  orderBy : option OrderBy;
  where_ : option Prisma.WhereInput;
  period : option string;
  query : option string;
  platformIds : option (list Z);
  territoryIds : option (list Z)
}.

Record FindResultResponse : Type := mkResponse {
  data : list DistributionStatement.t;
  count : Z;
  currentPage : Z;
  res_perPage : Z;
  totalPages : Js.number
}.

Import Prisma.

(** [{ f: { contains: query, mode: 'insensitive' } }] *)
Definition contains_key (f : TextField) (query : option string) : WhereInput :=
  Obj [contains_insensitive f query].

(** The eight entries of the source, [proyecto] twice. *)
Definition searchFilter (query : option string) : WhereInput :=
  Obj [OR [ contains_key proyecto query;
            contains_key isrc query;
            contains_key marketingOwner query;
            contains_key nombreDistribucion query;
            contains_key numeroDeCatalogo query;
            contains_key tituloCatalogo query;
            contains_key proyecto query;
            contains_key tipoDeIngreso query ]].

(** The tenant filter.  The value [Filter] is initialised with is
    overwritten on both branches of [if (team)]. *)
Definition Filter (team : option TeamPayload.t) (userId : Z) : WhereInput :=
  match team with
  | Some team =>
      Obj [AND [Obj [OR
        match TeamPayload.teamEmail team with
        | Some teamEmail =>
            [ Obj [teamId_eq (Some (TeamPayload.id team))];
              Obj [user_email_eq (TeamEmail.email teamEmail)] ]
        | None =>
            [ Obj [teamId_eq (Some (TeamPayload.id team))] ]
        end]]]
  | None =>
      Obj [AND [Obj [OR [ Obj [userId_eq userId; teamId_eq None] ]]]]
  end.

Definition whereAndClause (o : FindReleaseOptions) (team : option TeamPayload.t)
  : list WhereInput :=
  [ spread (Some (searchFilter (query o)));
    spread (Some (Filter team (userId o)));
    spread (where_ o) ].

(** [ids && ids.length > 0]: an array, also an empty one, is truthy.
    Where the test holds, [Js.default [] ids] is the array itself. *)
Definition present (ids : option (list Z)) : bool :=
  match ids with
  | Some l => 0 <? Z.of_nat (List.length l)
  | None => false
  end.

(** [whereClause] after the two facet assignments. *)
Definition whereClause_facets (o : FindReleaseOptions) (team : option TeamPayload.t)
  : WhereInput :=
  let whereClause := Obj [AND (whereAndClause o team)] in
  let whereClause :=
    if present (platformIds o)
    then assign whereClause (platforms_some_in (Js.default [] (platformIds o)))
    else whereClause in
  let whereClause :=
    if present (territoryIds o)
    then assign whereClause (territories_some_in (Js.default [] (territoryIds o)))
    else whereClause in
  whereClause.

(** [startOfPeriod] for a parsed day count. *)
Definition startOfPeriod (now : Luxon.DateTime) (daysAgo : Z) : Luxon.DateTime :=
  Luxon.startOf_day (Luxon.minus_days now daysAgo).

(** [whereClause] as the two storage calls receive it.  [if (period)]
    parses the day count; luxon rejects a [NaN] duration unit. *)
Definition whereClause (now : Luxon.DateTime) (o : FindReleaseOptions)
           (team : option TeamPayload.t) : M WhereInput :=
  let whereClause := whereClause_facets o team in
  match period o with
  | Some p =>
      if Js.truthy p then
        match Js.parseInt (Js.replace_d_end p) with
        | Some daysAgo =>
            ret (assign whereClause
                        (createdAt_gte (Luxon.toISO (startOfPeriod now daysAgo))))
        | None => throw InvalidArgumentError
        end
      else ret whereClause
  | None => ret whereClause
  end.

(** [if (teamId !== undefined) team = await prisma.team.findFirstOrThrow(...)] *)
Definition resolve_team (db : Database) (o : FindReleaseOptions)
  : M (option TeamPayload.t) :=
  match teamId o with
  | Some tid =>
      team <- issue (call_team_findFirstOrThrow tid (userId o))
                    (team_findFirstOrThrow db tid (userId o)) ;;
      ret (Some team)
  | None => ret None
  end.

(** The function itself; [now] is what [DateTime.now()] returns during
    the call. *)
Definition findDistribution (db : Database) (now : Luxon.DateTime)
           (o : FindReleaseOptions) : M FindResultResponse :=
  let page := Js.default 1 (page o) in
  let perPage := Js.default 10 (perPage o) in
  team <- resolve_team db o ;;
  let orderByColumn := Js.default col_id (option_map column (orderBy o)) in
  let orderByDirection := Js.default asc (option_map direction (orderBy o)) in
  whereClause <- whereClause now o team ;;
  let skip := Z.max (page - 1) 0 * perPage in
  r <- Promise_all
         (issue (call_findMany whereClause skip perPage orderByColumn orderByDirection)
                (distributionStatement_findMany db whereClause skip perPage orderByColumn orderByDirection))
         (issue (call_count whereClause) (distributionStatement_count db whereClause)) ;;
  let '(data, count) := r in
  ret {| data := data;
         count := count;
         currentPage := Z.max page 1;
         res_perPage := perPage;
         totalPages := Js.Math_ceil_div count perPage |}.

(** Requests that differ from [o] in one parameter. *)
Definition set_teamId (o : FindReleaseOptions) (v : option Z) :=
  mkOptions (userId o) v (page o) (perPage o) (orderBy o) (where_ o)
            (period o) (query o) (platformIds o) (territoryIds o).
Definition set_page (o : FindReleaseOptions) (v : option Z) :=
  mkOptions (userId o) (teamId o) v (perPage o) (orderBy o) (where_ o)
            (period o) (query o) (platformIds o) (territoryIds o).
Definition set_perPage (o : FindReleaseOptions) (v : option Z) :=
  mkOptions (userId o) (teamId o) (page o) v (orderBy o) (where_ o)
            (period o) (query o) (platformIds o) (territoryIds o).
Definition set_period (o : FindReleaseOptions) (v : option string) :=
  mkOptions (userId o) (teamId o) (page o) (perPage o) (orderBy o) (where_ o)
            v (query o) (platformIds o) (territoryIds o).
Definition set_query (o : FindReleaseOptions) (v : option string) :=
  mkOptions (userId o) (teamId o) (page o) (perPage o) (orderBy o) (where_ o)
            (period o) v (platformIds o) (territoryIds o).
Definition set_platformIds (o : FindReleaseOptions) (v : option (list Z)) :=
  mkOptions (userId o) (teamId o) (page o) (perPage o) (orderBy o) (where_ o)
            (period o) (query o) v (territoryIds o).
Definition set_territoryIds (o : FindReleaseOptions) (v : option (list Z)) :=
  mkOptions (userId o) (teamId o) (page o) (perPage o) (orderBy o) (where_ o)
            (period o) (query o) (platformIds o) v.

(* ================================================================== *)
(** ** The vocabulary of the specification *)

(** [q] occurs in [s] when case is ignored, the way the database
    folds it. *)
Definition ci_substring (q s : string) : Prop :=
  exists pre post : string,
    Pg.lower s = (pre ++ Pg.lower q ++ post)%string.

(** The characters that have a meaning of their own in a LIKE pattern. *)
Definition like_special (c : ascii) : bool :=
  Ascii.eqb c "%" || Ascii.eqb c "_" || Ascii.eqb c "\".

(** A query that is plain text: none of its characters is special. *)
Fixpoint plain (q : string) : bool :=
  match q with
  | EmptyString => true
  | String c t => negb (like_special c) && plain t
  end.

(** The seven text columns the specification lists for the search:
    project name, ISRC code, marketing owner, distribution name,
    catalog number, catalog title and income type. *)
Definition searched_fields : list TextField :=
  [ proyecto; isrc; marketingOwner; nombreDistribucion;
    numeroDeCatalogo; tituloCatalogo; tipoDeIngreso ].

(** The e-mail address of the user that owns the row, if any. *)
Definition owner_email (db : Database) (r : DistributionStatement.t)
  : option string :=
  option_map User.email (Prisma.user (users db) r).

(** The row has a platform (territory) association into [ids]. *)
Definition has_platform_in (ids : list Z) (r : DistributionStatement.t) : Prop :=
  exists a, In a (DistributionStatement.distributionStatementMusicPlatforms r)
            /\ In (DistributionStatementMusicPlatforms.platformId a) ids.

Definition has_territory_in (ids : list Z) (r : DistributionStatement.t) : Prop :=
  exists a, In a (DistributionStatement.distributionStatementTerritories r)
            /\ In (DistributionStatementTerritories.territoryId a) ids.

(** [n] is the ceiling of the quotient [a / b], for [b] of either sign:
    the least integer that is not below it. *)
Definition is_ceiling (n a b : Z) : Prop :=
  (0 < b -> (n - 1) * b < a <= n * b) /\
  (b < 0 -> n * b <= a < (n - 1) * b).

(** The rows of the database that satisfy a filter. *)
Definition matching (db : Database) (w : WhereInput)
  : list DistributionStatement.t :=
  filter (matches (users db) w) (distributionStatements db).

(** The offset the listing starts at. *)
Definition skip_of (o : FindReleaseOptions) : Z :=
  Z.max (Js.default 1 (page o) - 1) 0 * Js.default 10 (perPage o).

(** Whether a call addresses the distribution statements. *)
Definition touches_statements (c : Call) : bool :=
  match c with
  | call_team_findFirstOrThrow _ _ => false
  | call_findMany _ _ _ _ _ => true
  | call_count _ => true
  end.

(* ================================================================== *)
(** ** A small database to run the function on *)

Module Sample.

(** 14 November 2023, 22:13:20 UTC, on a system that runs in UTC. *)
Definition now : Luxon.DateTime := Luxon.now (fun _ => 0) 1700000000000.

Definition days (n : Z) : Z := n * Luxon.msPerDay.

Definition platform := DistributionStatementMusicPlatforms.mk.
Definition territory := DistributionStatementTerritories.mk.

(** Owned by user 7 alone, one day old. *)
Definition row1 : DistributionStatement.t :=
  DistributionStatement.mk 1 (Some 7) None (Luxon.ts now - days 1)
    (fun f => match f with isrc => Some "ISRC-123" | _ => None end)
    [platform 5] [territory 2].

(** Created by user 7 inside team 3, five days old. *)
Definition row2 : DistributionStatement.t :=
  DistributionStatement.mk 2 (Some 7) (Some 3) (Luxon.ts now - days 5)
    (fun f => match f with proyecto => Some "Alpha" | _ => None end)
    [] [].

(** Owned by the user behind the inbox of team 3, a hundred days old. *)
Definition row3 : DistributionStatement.t :=
  DistributionStatement.mk 3 (Some 8) None (Luxon.ts now - days 100)
    (fun f => match f with tipoDeIngreso => Some "Streaming" | _ => None end)
    [platform 6] [territory 2; territory 9].

(** Belongs to team 4. *)
Definition row4 : DistributionStatement.t :=
  DistributionStatement.mk 4 (Some 9) (Some 4) (Luxon.ts now - days 3)
    (fun f => match f with nombreDistribucion => Some "Beta" | _ => None end)
    [platform 5; platform 6] [].

Definition db : Database :=
  {| users := [ User.mk 7 "ana@label.com";
                User.mk 8 "inbox@label.com";
                User.mk 9 "leo@label.com" ];
     teams := [ Team.mk 3 (Some (TeamEmail.mk "inbox@label.com"))
                        [TeamMember.mk 7 "ADMIN"];
                Team.mk 4 None [TeamMember.mk 9 "MEMBER"] ];
     distributionStatements := [row1; row2; row3; row4];
     tiebreak := fun _ _ _ => 0 |}.

(** The request of a listing page of user [u]: an empty search box and
    everything else left out. *)
Definition request (u : Z) : FindReleaseOptions :=
  {| userId := u; teamId := None; page := None; perPage := None;
     orderBy := None; where_ := None; period := None; query := Some "";
     platformIds := None; territoryIds := None |}.

(** User 9 lists team 4 with every filter in use: a query, a filter of
    the caller, a platform and a period. *)
Definition busy_request : FindReleaseOptions :=
  {| userId := 9; teamId := Some 4; page := None; perPage := None;
     orderBy := None; where_ := Some (Obj [userId_eq 9]);
     period := Some "7d"; query := Some "beta";
     platformIds := Some [5]; territoryIds := None |}.

End Sample.

(** A system in New York during 2023: UTC-5, and UTC-4 from 12 March,
    07:00 UTC, to 5 November, 06:00 UTC. *)
Module NewYork.

Definition zone (t : Z) : Z :=
  if (1678604400000 <=? t) && (t <? 1699164000000) then -240 else -300.

(** 8 November 2023, 17:00 UTC: noon in New York, three days after the
    clocks went back. *)
Definition now : Luxon.DateTime := Luxon.now zone 1699462800000.

End NewYork.

(* ================================================================== *)
(** ** Clients of the listing *)

Definition set_where (o : FindReleaseOptions) (v : option WhereInput) :=
  mkOptions (userId o) (teamId o) (page o) (perPage o) (orderBy o) v
            (period o) (query o) (platformIds o) (territoryIds o).
Definition set_orderBy (o : FindReleaseOptions) (v : option OrderBy) :=
  mkOptions (userId o) (teamId o) (page o) (perPage o) v (where_ o)
            (period o) (query o) (platformIds o) (territoryIds o).

(** The values the function falls back to. *)
Definition page_of (o : FindReleaseOptions) : Z := Js.default 1 (page o).
Definition perPage_of (o : FindReleaseOptions) : Z := Js.default 10 (perPage o).
Definition orderByColumn_of (o : FindReleaseOptions) : Column :=
  Js.default col_id (option_map column (orderBy o)).
Definition orderByDirection_of (o : FindReleaseOptions) : Direction :=
  Js.default asc (option_map direction (orderBy o)).



(** A listing is in the order of column [c], direction [d]. *)
Definition ordered_by (c : Column) (d : Direction)
           (l : list DistributionStatement.t) : Prop :=
  StronglySorted (fun a b => precedes c d a b = true) l.

(** The test the period adds to the filter, as a boolean. *)
Definition period_ok (now : Luxon.DateTime) (o : FindReleaseOptions)
           (r : DistributionStatement.t) : bool :=
  match period o with
  | Some p =>
      if Js.truthy p then
        match Js.parseInt (Js.replace_d_end p) with
        | Some n =>
            match Luxon.toISO (startOfPeriod now n) with
            | Some t => t <=? DistributionStatement.createdAt r
            | None => false
            end
        | None => true
        end
      else true
  | None => true
  end.

(** The condition the period puts on a row: none for an absent or empty
    period, otherwise the lower bound of the parsed day count. *)
Definition period_accepts (now : Luxon.DateTime) (o : FindReleaseOptions)
           (r : DistributionStatement.t) : Prop :=
  forall p n, period o = Some p -> p <> "" ->
              Js.parseInt (Js.replace_d_end p) = Some n ->
              Luxon.ts (startOfPeriod now n) <= DistributionStatement.createdAt r.

(* ================================================================== *)
(** ** Strings *)

Example replace_d_end_last_only :
  Js.replace_d_end "7d" = "7" /\ Js.replace_d_end "dd" = "d" /\
  Js.replace_d_end "d7" = "d7".
Proof. repeat split. Qed.

Example parseInt_examples :
  Js.parseInt "7" = Some 7 /\ Js.parseInt "  -12px" = Some (-12) /\
  Js.parseInt "1.5" = Some 1 /\ Js.parseInt "week" = None /\
  Js.parseInt "" = None.
Proof. repeat split. Qed.

Lemma append_assoc (a b c : string) :
  ((a ++ b) ++ c)%string = (a ++ b ++ c)%string.
Proof. induction a as [| x a IH]; simpl; [reflexivity | now rewrite IH]. Qed.

Lemma lower_append (a b : string) :
  Pg.lower (a ++ b) = (Pg.lower a ++ Pg.lower b)%string.
Proof. induction a as [| x a IH]; simpl; [reflexivity | now rewrite IH]. Qed.

(** Folding by the database does not tell apart what the folding of
    A to Z identifies. *)
Lemma lower_char_ascii c :
  Pg.lower_char (Js.toLowerCase_ascii c) = Pg.lower_char c.
Proof. destruct c as [[] [] [] [] [] [] [] []]; reflexivity. Qed.

Lemma lower_toLowerCase s : Pg.lower (Js.toLowerCase s) = Pg.lower s.
Proof.
  induction s as [| c s IH]; simpl; [reflexivity |].
  now rewrite lower_char_ascii, IH.
Qed.

Lemma like_special_lower c :
  like_special (Pg.lower_char c) = like_special c.
Proof. destruct c as [[] [] [] [] [] [] [] []]; reflexivity. Qed.

Lemma plain_lower q : plain (Pg.lower q) = plain q.
Proof.
  induction q as [| c q IH]; simpl; [reflexivity |].
  now rewrite like_special_lower, IH.
Qed.

(** One step of [%]: it matches nothing here, or it takes a
    character. *)
Lemma like_any_string p s :
  Pg.like (Pg.any_string :: p) s =
  Pg.like p s ||
  match s with
  | EmptyString => false
  | String _ s' => Pg.like (Pg.any_string :: p) s'
  end.
Proof. destruct s; reflexivity. Qed.

Lemma like_any_string_iff p s :
  Pg.like (Pg.any_string :: p) s = true <->
  exists pre rest : string, s = (pre ++ rest)%string /\ Pg.like p rest = true.
Proof.
  induction s as [| c s IH]; rewrite like_any_string.
  - rewrite orb_false_r. split.
    + intros H. now exists EmptyString, EmptyString.
    + intros (pre & rest & E & H). destruct pre; [| discriminate].
      simpl in E. now subst.
  - rewrite orb_true_iff, IH. split.
    + intros [H | (pre & rest & -> & H)].
      * now exists EmptyString, (String c s).
      * now exists (String c pre), rest.
    + intros (pre & rest & E & H). destruct pre as [| d pre]; simpl in E.
      * left. now subst.
      * right. injection E as _ ->. now exists pre, rest.
Qed.

Lemma like_only_any_string s : Pg.like [Pg.any_string] s = true.
Proof.
  induction s as [| c s IH]; rewrite like_any_string; [reflexivity |].
  rewrite IH. apply orb_true_r.
Qed.

Lemma like_literals_iff x p s :
  Pg.like (Pg.literals x ++ p) s = true <->
  exists rest : string, s = (x ++ rest)%string /\ Pg.like p rest = true.
Proof.
  revert s. induction x as [| c x IH]; intros s.
  - simpl. split; [intros H; now exists s | now intros (rest & -> & H)].
  - cbn [Pg.literals app Pg.like]. destruct s as [| d s].
    + split; [discriminate | intros (rest & E & _); discriminate].
    + rewrite andb_true_iff, Ascii.eqb_eq, IH. split.
      * intros [-> (rest & -> & H)]. now exists rest.
      * intros (rest & E & H). injection E as -> ->.
        split; [reflexivity | now exists rest].
Qed.

(** A plain text is read as the pattern of its own characters. *)
Lemma tokens_plain q rest :
  plain q = true ->
  Pg.tokens (q ++ rest) = option_map (app (Pg.literals q)) (Pg.tokens rest).
Proof.
  induction q as [| c q IH]; intros H.
  - simpl. now destruct (Pg.tokens rest).
  - cbn [plain] in H. apply andb_true_iff in H. destruct H as [Hc Hq].
    unfold like_special in Hc. apply negb_true_iff in Hc.
    apply orb_false_iff in Hc. destruct Hc as [Hc Hb].
    apply orb_false_iff in Hc. destruct Hc as [Hp Hu].
    cbn [append Pg.tokens Pg.literals]. rewrite Hb, Hp, Hu, (IH Hq).
    now destruct (Pg.tokens rest).
Qed.

(** The pattern of [contains] for a plain operand. *)
Lemma tokens_contains_plain q :
  plain q = true ->
  Pg.tokens (Pg.lower (Pg.contains_pattern q)) =
  Some (Pg.any_string :: Pg.literals (Pg.lower q) ++ [Pg.any_string]).
Proof.
  intros H. unfold Pg.contains_pattern.
  rewrite !lower_append. change (Pg.lower "%") with "%"%string.
  cbn [append Pg.tokens]. change (Ascii.eqb "%" "\") with false.
  change (Ascii.eqb "%" "%") with true. cbv iota.
  rewrite tokens_plain by now rewrite plain_lower. reflexivity.
Qed.

(** For a plain operand, [contains] is the substring relation up to
    case. *)
Lemma contains_plain_iff q s :
  plain q = true -> (contains q s = true <-> ci_substring q s).
Proof.
  intros H. unfold contains, Pg.ilike, ci_substring.
  rewrite (tokens_contains_plain q H). cbn [option_map].
  rewrite like_any_string_iff. split.
  - intros (pre & rest & E & Hl). apply like_literals_iff in Hl.
    destruct Hl as (post & -> & _). now exists pre, post.
  - intros (pre & post & E). exists pre, (Pg.lower q ++ post)%string.
    split; [exact E |]. apply like_literals_iff. exists post.
    split; [reflexivity | apply like_only_any_string].
Qed.

(** The pattern of [contains] is never in error: it ends in [%], which
    a backslash before it turns into a literal. *)
Lemma tokens_percent_defined x : Pg.tokens (x ++ "%") <> None.
Proof.
  assert (H : forall n x, (String.length x <= n)%nat ->
                          Pg.tokens (x ++ "%") <> None).
  { induction n as [| n IH]; intros x0 Hl.
    - destruct x0; [discriminate | simpl in Hl; lia].
    - destruct x0 as [| c x0]; [discriminate |].
      cbn [append Pg.tokens]. destruct (Ascii.eqb c "\").
      + destruct x0 as [| d x0]; [discriminate |].
        cbn [append].
        specialize (IH x0 ltac:(simpl in Hl; lia)).
        now destruct (Pg.tokens (x0 ++ "%")).
      + specialize (IH x0 ltac:(simpl in Hl; lia)).
        now destruct (Pg.tokens (x0 ++ "%")). }
  now apply (H (String.length x)).
Qed.

Lemma contains_pattern_defined q :
  Pg.tokens (Pg.lower (Pg.contains_pattern q)) <> None.
Proof.
  unfold Pg.contains_pattern. rewrite <- append_assoc, lower_append.
  change (Pg.lower "%") with "%"%string. apply tokens_percent_defined.
Qed.

(** The empty operand matches every value. *)
Lemma contains_empty s : contains "" s = true.
Proof.
  unfold contains, Pg.ilike. cbn [Pg.contains_pattern append].
  change (Pg.tokens (Pg.lower "%%")) with (Some [Pg.any_string; Pg.any_string]).
  cbn [option_map]. apply like_any_string_iff.
  exists EmptyString, (Pg.lower s). split; [reflexivity | apply like_only_any_string].
Qed.

(** What [contains] accepts depends on its operand up to case only. *)
Lemma contains_case q1 q2 s :
  Js.toLowerCase q1 = Js.toLowerCase q2 -> contains q1 s = contains q2 s.
Proof.
  intros H. unfold contains, Pg.ilike, Pg.contains_pattern.
  rewrite !lower_append.
  now rewrite <- (lower_toLowerCase q1), H, lower_toLowerCase.
Qed.

Example contains_folds_accents :
  contains ("jos" ++ String (ascii_of_N 233) "")
           ("JOS" ++ String (ascii_of_N 201) "") = true.
Proof. reflexivity. Qed.

Example contains_examples :
  contains "isrc-123" "MX-ISRC-123-A" = true /\
  contains "_" "abc" = true /\ contains "a%c" "abbbc" = true /\
  contains "\_" "abc" = false /\ contains "\_" "a_c" = true /\
  contains "x\" "ax%" = true /\ contains "x\" "ax" = false.
Proof. repeat split. Qed.

(** For a plain operand, the check the database performs for
    [contains] with [mode: 'insensitive'] is the substring relation up
    to case. *)
Lemma contains_insensitive_iff us f q r :
  plain q = true ->
  (matches us (contains_insensitive f (Some q)) r = true <->
   exists s, DistributionStatement.text r f = Some s /\ ci_substring q s).
Proof.
  intros Hq. cbn [matches].
  destruct (DistributionStatement.text r f) as [s |].
  - rewrite (contains_plain_iff q s Hq). split.
    + intros H. now exists s.
    + intros [s' [E H]]. now injection E as <-.
  - split; [discriminate | intros [s [E _]]; discriminate].
Qed.

(** Whatever the operand, only a column that holds a value contains
    it. *)
Lemma contains_insensitive_value us f q r :
  matches us (contains_insensitive f (Some q)) r = true ->
  DistributionStatement.text r f <> None.
Proof.
  cbn [matches]. now destruct (DistributionStatement.text r f).
Qed.

(* ================================================================== *)
(** ** Listings *)

Lemma insert_row_In c d tb x l y :
  In y (insert_row c d tb x l) <-> y = x \/ In y l.
Proof.
  induction l as [| z l IH]; simpl.
  - intuition.
  - destruct (precedes_tb c d tb x z); simpl; [intuition | rewrite IH; intuition].
Qed.

Lemma order_rows_In c d tb l y : In y (order_rows c d tb l) <-> In y l.
Proof.
  unfold order_rows.
  induction l as [| x l IH]; simpl; [reflexivity |].
  rewrite insert_row_In, IH. intuition.
Qed.

Lemma In_skipn {A} (n : nat) (l : list A) (x : A) : In x (skipn n l) -> In x l.
Proof.
  revert l. induction n as [| n IH]; intros [| y l]; simpl; auto.
Qed.

Lemma In_firstn {A} (n : nat) (l : list A) (x : A) : In x (firstn n l) -> In x l.
Proof.
  revert l. induction n as [| n IH]; intros [| y l]; simpl; intuition.
Qed.

(** Whatever the page, a listing holds only rows that satisfy its filter. *)
Lemma findMany_sound db w skip take c d rows :
  distributionStatement_findMany db w skip take c d = inr rows ->
  forall r, In r rows -> In r (matching db w).
Proof.
  unfold distributionStatement_findMany, matching.
  destruct (negb (valid w) || (skip <? 0)); [discriminate |].
  intros E r Hr. injection E as <-.
  destruct (0 <=? take).
  - apply In_firstn, In_skipn in Hr. now apply order_rows_In in Hr.
  - apply in_rev, In_firstn, In_skipn in Hr.
    apply in_rev in Hr. now apply order_rows_In in Hr.
Qed.

(** A listing that returns was given a filter the client accepts, and
    then the count returns too. *)
Lemma findMany_valid db w skip take c d rows :
  distributionStatement_findMany db w skip take c d = inr rows ->
  valid w = true.
Proof.
  unfold distributionStatement_findMany.
  destruct (valid w); [reflexivity | discriminate].
Qed.

Lemma count_valid db w :
  valid w = true ->
  distributionStatement_count db w = inr (Z.of_nat (List.length (matching db w))).
Proof. unfold distributionStatement_count, matching. now intros ->. Qed.

Lemma matching_In db w r :
  In r (matching db w) <->
  In r (distributionStatements db) /\ matches (users db) w r = true.
Proof. unfold matching. apply filter_In. Qed.

(* ================================================================== *)
(** ** The composed filter *)

Lemma matches_assign us w k r :
  matches us (assign w k) r = matches us w r && matches us k r.
Proof.
  destruct w; cbn [assign matches forallb];
    try (now rewrite andb_true_r).
  rewrite forallb_app. cbn [forallb]. now rewrite andb_true_r.
Qed.

Lemma option_Z_eqb_eq a b : option_Z_eqb a b = true <-> a = b.
Proof.
  destruct a as [x |], b as [y |]; simpl;
    try (split; [discriminate | congruence]); try tauto.
  rewrite Z.eqb_eq. split; congruence.
Qed.

Lemma Z_mem_In x l : Z_mem x l = true <-> In x l.
Proof.
  unfold Z_mem. rewrite existsb_exists. split.
  - intros [y [H E]]. apply Z.eqb_eq in E. now subst.
  - intros H. exists x. split; [assumption | apply Z.eqb_refl].
Qed.

Lemma platforms_some_in_iff us ids r :
  matches us (platforms_some_in ids) r = true <-> has_platform_in ids r.
Proof.
  unfold has_platform_in. simpl. rewrite existsb_exists.
  split; intros [a [H1 H2]]; exists a; (split; [assumption |]);
    now apply Z_mem_In.
Qed.

Lemma territories_some_in_iff us ids r :
  matches us (territories_some_in ids) r = true <-> has_territory_in ids r.
Proof.
  unfold has_territory_in. simpl. rewrite existsb_exists.
  split; intros [a [H1 H2]]; exists a; (split; [assumption |]);
    now apply Z_mem_In.
Qed.

(** The filter before the period is looked at: the conjunction of the
    search, the tenant filter, the caller's filter and the facets that
    are present. *)
Lemma whereClause_facets_matches us o team r :
  matches us (whereClause_facets o team) r =
  matches us (searchFilter (query o)) r
  && matches us (Filter team (userId o)) r
  && matches us (spread (where_ o)) r
  && (if present (platformIds o)
      then matches us (platforms_some_in (Js.default [] (platformIds o))) r
      else true)
  && (if present (territoryIds o)
      then matches us (territories_some_in (Js.default [] (territoryIds o))) r
      else true).
Proof.
  unfold whereClause_facets.
  set (base := Obj [AND (whereAndClause o team)]).
  assert (Hbase : matches us base r =
                  matches us (searchFilter (query o)) r
                  && matches us (Filter team (userId o)) r
                  && matches us (spread (where_ o)) r).
  { unfold base, whereAndClause. cbn [matches forallb spread].
    rewrite !andb_true_r. now rewrite andb_assoc. }
  destruct (present (platformIds o)), (present (territoryIds o));
    rewrite ?matches_assign, Hbase, ?andb_true_r; reflexivity.
Qed.

(** The outcomes of the period step. *)
Lemma whereClause_inr now o team l w :
  whereClause now o team = (l, inr w) ->
  l = [] /\
  ((w = whereClause_facets o team /\
    (period o = None \/ period o = Some ""))
   \/
   (exists p daysAgo,
       period o = Some p /\ p <> "" /\
       Js.parseInt (Js.replace_d_end p) = Some daysAgo /\
       w = assign (whereClause_facets o team)
                  (createdAt_gte (Luxon.toISO (startOfPeriod now daysAgo))))).
Proof.
  unfold whereClause, ret, throw.
  destruct (period o) as [p |].
  - destruct p as [| c p]; cbn [Js.truthy].
    + intros E. injection E as <- <-. split; [reflexivity |]. left. auto.
    + destruct (Js.parseInt (Js.replace_d_end (String c p))) as [n |] eqn:En.
      * intros E. injection E as <- <-. split; [reflexivity |]. right.
        exists (String c p), n. repeat split; auto. discriminate.
      * discriminate.
  - intros E. injection E as <- <-. split; [reflexivity |]. left. auto.
Qed.

(* ================================================================== *)
(** ** The shape of a call *)

(** Closes a goal [In c log] for one of the last calls of a log that
    [Hlog] spells out. *)
Ltac in_log Hlog :=
  rewrite Hlog; apply in_or_app; right; simpl; auto.

Lemma resolve_team_None db o :
  teamId o = None -> resolve_team db o = ([], inr None).
Proof. unfold resolve_team. now intros ->. Qed.

Lemma resolve_team_Some db o tid :
  teamId o = Some tid ->
  resolve_team db o =
  ([call_team_findFirstOrThrow tid (userId o)],
   match team_findFirstOrThrow db tid (userId o) with
   | inr team => inr (Some team)
   | inl e => inl e
   end).
Proof.
  unfold resolve_team, bind, issue, ret. intros ->.
  now destruct (team_findFirstOrThrow db tid (userId o)).
Qed.

(** A call that returns went through all three steps: the team was
    resolved, the filter was built, and the listing and the count were
    both issued with that one filter. *)
Lemma findDistribution_inr db now o log res :
  findDistribution db now o = (log, inr res) ->
  exists team w,
    snd (resolve_team db o) = inr team /\
    whereClause now o team = ([], inr w) /\
    log = fst (resolve_team db o) ++
          [ call_findMany w (skip_of o) (Js.default 10 (perPage o))
                          (Js.default col_id (option_map column (orderBy o)))
                          (Js.default asc (option_map direction (orderBy o)));
            call_count w ] /\
    distributionStatement_findMany db w (skip_of o) (Js.default 10 (perPage o))
      (Js.default col_id (option_map column (orderBy o)))
      (Js.default asc (option_map direction (orderBy o))) = inr (data res) /\
    count res = Z.of_nat (List.length (matching db w)) /\
    currentPage res = Z.max (Js.default 1 (page o)) 1 /\
    res_perPage res = Js.default 10 (perPage o) /\
    totalPages res = Js.Math_ceil_div (count res) (Js.default 10 (perPage o)).
Proof.
  unfold findDistribution, skip_of, bind, Promise_all, issue, ret.
  destruct (resolve_team db o) as [l1 [e | team]]; [discriminate |].
  destruct (whereClause now o team) as [l2 [e | w]] eqn:Ew; [discriminate |].
  destruct (whereClause_inr _ _ _ _ _ Ew) as [-> _].
  cbn [fst snd].
  destruct (distributionStatement_findMany _ _ _ _ _ _) as [e | rows] eqn:Ef;
    [discriminate |].
  rewrite (count_valid db w (findMany_valid _ _ _ _ _ _ _ Ef)).
  intros E. injection E as <- <-.
  exists team, w. cbn [data count currentPage res_perPage totalPages app].
  repeat match goal with |- _ /\ _ => split end;
    first [reflexivity | assumption].
Qed.

(** Conversely, the three steps are all a call needs to return. *)
Lemma findDistribution_returns db now o team w rows :
  snd (resolve_team db o) = inr team ->
  whereClause now o team = ([], inr w) ->
  distributionStatement_findMany db w (skip_of o) (Js.default 10 (perPage o))
    (Js.default col_id (option_map column (orderBy o)))
    (Js.default asc (option_map direction (orderBy o))) = inr rows ->
  exists log res,
    findDistribution db now o = (log, inr res) /\ data res = rows.
Proof.
  intros Ht Ew Ef.
  unfold findDistribution, bind, Promise_all, issue, ret.
  destruct (resolve_team db o) as [l1 [e | team']]; cbn [snd] in Ht;
    [discriminate |].
  injection Ht as ->. rewrite Ew.
  fold (skip_of o).
  rewrite Ef, (count_valid db w (findMany_valid _ _ _ _ _ _ _ Ef)).
  cbn [fst snd].
  eexists. eexists. split; reflexivity.
Qed.

(** Every returned row satisfies the filter the calls were issued with. *)
Lemma findDistribution_data db now o log res :
  findDistribution db now o = (log, inr res) ->
  exists team w,
    snd (resolve_team db o) = inr team /\
    whereClause now o team = ([], inr w) /\
    forall r, In r (data res) ->
              In r (distributionStatements db) /\ matches (users db) w r = true.
Proof.
  intros H. destruct (findDistribution_inr _ _ _ _ _ H)
    as (team & w & Ht & Ew & _ & Ef & _).
  exists team, w. split; [assumption |]. split; [assumption |].
  intros r Hr. apply (findMany_sound _ _ _ _ _ _ _ Ef) in Hr.
  now apply matching_In in Hr.
Qed.

Lemma whereClause_implies_facets now o team w us r :
  whereClause now o team = ([], inr w) ->
  matches us w r = true ->
  matches us (whereClause_facets o team) r = true.
Proof.
  intros Ew Hm.
  destruct (whereClause_inr _ _ _ _ _ Ew) as [_ [[-> _] | (p & n & _ & _ & _ & ->)]].
  - exact Hm.
  - rewrite matches_assign in Hm. now apply andb_true_iff in Hm.
Qed.

(** The parts a row must satisfy to pass the composed filter. *)
Lemma whereClause_parts now o team w us r :
  whereClause now o team = ([], inr w) ->
  matches us w r = true ->
  matches us (searchFilter (query o)) r = true /\
  matches us (Filter team (userId o)) r = true /\
  matches us (spread (where_ o)) r = true /\
  (present (platformIds o) = true ->
   matches us (platforms_some_in (Js.default [] (platformIds o))) r = true) /\
  (present (territoryIds o) = true ->
   matches us (territories_some_in (Js.default [] (territoryIds o))) r = true).
Proof.
  intros Ew Hm. apply (whereClause_implies_facets _ _ _ _ _ _ Ew) in Hm.
  rewrite whereClause_facets_matches in Hm.
  rewrite !andb_true_iff in Hm.
  destruct Hm as [[[[Hs Hf] Hw] Hp] Ht].
  repeat match goal with |- _ /\ _ => split end; try assumption.
  - intros E. now rewrite E in Hp.
  - intros E. now rewrite E in Ht.
Qed.

(* ================================================================== *)
(** ** Tenant scoping *)

Lemma Filter_personal_iff us userId r :
  matches us (Filter None userId) r = true <->
  DistributionStatement.userId r = Some userId /\
  DistributionStatement.teamId r = None.
Proof.
  cbn [Filter matches forallb existsb].
  rewrite !andb_true_r, orb_false_r, andb_true_iff, !option_Z_eqb_eq.
  reflexivity.
Qed.

Lemma user_email_eq_iff db e r :
  matches (users db) (user_email_eq e) r = true <-> owner_email db r = Some e.
Proof.
  unfold owner_email. cbn [matches].
  destruct (user (users db) r) as [u |]; cbn [option_map].
  - rewrite String.eqb_eq. split; congruence.
  - split; discriminate.
Qed.

Lemma Filter_team_iff db team userId r :
  matches (users db) (Filter (Some team) userId) r = true <->
  match TeamPayload.teamEmail team with
  | Some teamEmail =>
      DistributionStatement.teamId r = Some (TeamPayload.id team) \/
      owner_email db r = Some (TeamEmail.email teamEmail)
  | None => DistributionStatement.teamId r = Some (TeamPayload.id team)
  end.
Proof.
  unfold Filter.
  destruct (TeamPayload.teamEmail team) as [te |].
  - cbn [matches forallb existsb].
    rewrite !andb_true_r, orb_false_r, orb_true_iff.
    fold (matches (users db) (user_email_eq (TeamEmail.email te)) r).
    now rewrite user_email_eq_iff, option_Z_eqb_eq.
  - cbn [matches forallb existsb].
    rewrite !andb_true_r, orb_false_r. apply option_Z_eqb_eq.
Qed.

Lemma find_all_false {A} (f : A -> bool) (l : list A) :
  (forall x, In x l -> f x = false) -> find f l = None.
Proof.
  induction l as [| y l IH]; intros H; simpl; [reflexivity |].
  rewrite (H y (or_introl eq_refl)). apply IH. intros x Hx. apply H. now right.
Qed.

(** The team a lookup returns is the one asked for, the requester is
    one of its members, and its inbox is the one configured for it. *)
Lemma team_findFirstOrThrow_inr db teamId userId team :
  team_findFirstOrThrow db teamId userId = inr team ->
  TeamPayload.id team = teamId /\
  exists t, In t (teams db) /\ Team.id t = teamId /\
            is_member userId t = true /\
            TeamPayload.teamEmail team = Team.teamEmail t.
Proof.
  unfold team_findFirstOrThrow.
  destruct (find _ (teams db)) as [t |] eqn:E; [| discriminate].
  apply find_some in E. destruct E as [Hin Hf].
  apply andb_true_iff in Hf. destruct Hf as [Hid Hm]. apply Z.eqb_eq in Hid.
  intros H. injection H as <-. cbn [TeamPayload.id TeamPayload.teamEmail].
  split; [assumption |]. now exists t.
Qed.

(** C1: without a [teamId] no team is resolved, and the tenant filter
    composed for the call accepts a row exactly when its owner is the
    requesting user and its [teamId] is null; the filter given to the
    listing and to the count implies it, so every returned row is
    personally owned and not owned by a team. *)
Theorem C1_personal_scope db now o :
  teamId o = None ->
  snd (resolve_team db o) = inr None /\
  (forall us r,
      matches us (Filter None (userId o)) r = true <->
      DistributionStatement.userId r = Some (userId o) /\
      DistributionStatement.teamId r = None) /\
  (forall log res,
      findDistribution db now o = (log, inr res) ->
      (exists w,
          In (call_count w) log /\
          forall r, matches (users db) w r = true ->
                    DistributionStatement.userId r = Some (userId o) /\
                    DistributionStatement.teamId r = None) /\
      (forall r, In r (data res) ->
                 DistributionStatement.userId r = Some (userId o) /\
                 DistributionStatement.teamId r = None)).
Proof.
  intros Hteam.
  pose proof (resolve_team_None db o Hteam) as Hres.
  split; [now rewrite Hres |].
  split; [intros us r; apply Filter_personal_iff |].
  intros log res H.
  destruct (findDistribution_inr _ _ _ _ _ H)
    as (team & w & Ht & Ew & Hlog & Ef & _).
  rewrite Hres in Ht. cbn [snd] in Ht. injection Ht as <-.
  assert (Hw : forall r, matches (users db) w r = true ->
                         DistributionStatement.userId r = Some (userId o) /\
                         DistributionStatement.teamId r = None).
  { intros r Hm.
    destruct (whereClause_parts _ _ _ _ _ _ Ew Hm) as (_ & HF & _).
    now apply Filter_personal_iff in HF. }
  split.
  - exists w. split; [| exact Hw].
    in_log Hlog.
  - intros r Hr. apply Hw.
    apply (findMany_sound _ _ _ _ _ _ _ Ef) in Hr.
    now apply matching_In in Hr.
Qed.

(** C1 on the sample database: user 7 without a team sees row 1 only. *)
Lemma C1_personal_scope_witness :
  teamId (Sample.request 7) = None /\
  forall r,
    In r [Sample.row1] ->
    DistributionStatement.userId r = Some 7 /\
    DistributionStatement.teamId r = None.
Proof.
  split; [reflexivity |].
  refine (proj2 (proj2 (proj2
            (C1_personal_scope Sample.db Sample.now (Sample.request 7) eq_refl))
            [call_findMany _ _ _ _ _; call_count _]
            (mkResponse [Sample.row1] 1 1 10 (Js.Int 1)) _)).
  vm_compute. reflexivity.
Defined.

(** C2: with a [teamId] the call returns only after the team was
    resolved for the requester; the tenant filter composed from that
    team accepts a row exactly when its [teamId] is the team's id or,
    if the team has a shared inbox, when the e-mail address of its
    owner is that inbox; without a shared inbox it accepts exactly the
    rows whose [teamId] is the team's id.  Every returned row passes
    that filter. *)
Theorem C2_team_scope db now o tid log res :
  teamId o = Some tid ->
  findDistribution db now o = (log, inr res) ->
  exists team,
    team_findFirstOrThrow db tid (userId o) = inr team /\
    TeamPayload.id team = tid /\
    (forall r,
        matches (users db) (Filter (Some team) (userId o)) r = true <->
        match TeamPayload.teamEmail team with
        | Some teamEmail =>
            DistributionStatement.teamId r = Some tid \/
            owner_email db r = Some (TeamEmail.email teamEmail)
        | None => DistributionStatement.teamId r = Some tid
        end) /\
    (forall r, In r (data res) ->
               matches (users db) (Filter (Some team) (userId o)) r = true).
Proof.
  intros Hteam H.
  destruct (findDistribution_inr _ _ _ _ _ H)
    as (team & w & Ht & Ew & _ & Ef & _).
  rewrite (resolve_team_Some db o tid Hteam) in Ht. cbn [snd] in Ht.
  destruct (team_findFirstOrThrow db tid (userId o)) as [e | t] eqn:Et;
    [discriminate |].
  injection Ht as <-.
  destruct (team_findFirstOrThrow_inr _ _ _ _ Et) as [Hid _].
  exists t. split; [reflexivity |]. split; [assumption |]. split.
  - intros r. rewrite Filter_team_iff, Hid. reflexivity.
  - intros r Hr. apply (findMany_sound _ _ _ _ _ _ _ Ef) in Hr.
    apply matching_In in Hr. destruct Hr as [_ Hm].
    now destruct (whereClause_parts _ _ _ _ _ _ Ew Hm) as (_ & HF & _).
Qed.

(** C2 on the sample database: team 3 has a shared inbox, and user 7
    sees the row of the team and the row owned by the inbox. *)
Lemma C2_team_scope_witness :
  teamId (set_teamId (Sample.request 7) (Some 3)) = Some 3 /\
  exists team,
    team_findFirstOrThrow Sample.db 3 7 = inr team /\
    TeamPayload.id team = 3 /\
    (forall r,
        matches (users Sample.db) (Filter (Some team) 7) r = true <->
        match TeamPayload.teamEmail team with
        | Some teamEmail =>
            DistributionStatement.teamId r = Some 3 \/
            owner_email Sample.db r = Some (TeamEmail.email teamEmail)
        | None => DistributionStatement.teamId r = Some 3
        end) /\
    (forall r, In r [Sample.row2; Sample.row3] ->
               matches (users Sample.db) (Filter (Some team) 7) r = true).
Proof.
  split; [reflexivity |].
  refine (C2_team_scope Sample.db Sample.now
            (set_teamId (Sample.request 7) (Some 3)) 3
            [call_team_findFirstOrThrow _ _; call_findMany _ _ _ _ _; call_count _]
            (mkResponse [Sample.row2; Sample.row3] 2 1 10 (Js.Int 1))
            eq_refl _).
  vm_compute. reflexivity.
Defined.

(** C3: when no team with the requested id has the requester among its
    members, the call is rejected with the not-found error of the team
    lookup, and that lookup is the only storage call issued: neither the
    listing nor the count of distribution statements is reached, and
    there is no value, personal or other, to return. *)
Theorem C3_non_member_rejected db now o tid :
  teamId o = Some tid ->
  (forall t, In t (teams db) -> Team.id t = tid ->
             is_member (userId o) t = false) ->
  findDistribution db now o =
  ([call_team_findFirstOrThrow tid (userId o)], inl NotFoundError) /\
  existsb touches_statements (fst (findDistribution db now o)) = false.
Proof.
  intros Hteam Hnot.
  assert (E : findDistribution db now o =
              ([call_team_findFirstOrThrow tid (userId o)], inl NotFoundError)).
  { unfold findDistribution.
    rewrite (resolve_team_Some db o tid Hteam).
    unfold team_findFirstOrThrow.
    rewrite find_all_false; [reflexivity |].
    intros t Hin. destruct (Team.id t =? tid) eqn:Eid; [| reflexivity].
    apply Z.eqb_eq in Eid. now rewrite (Hnot t Hin Eid). }
  split; [exact E |]. now rewrite E.
Qed.

(** C3 on the sample database: user 7 is no member of team 4. *)
Lemma C3_non_member_rejected_witness :
  teamId (set_teamId (Sample.request 7) (Some 4)) = Some 4 /\
  (forall t, In t (teams Sample.db) -> Team.id t = 4 ->
             is_member 7 t = false) /\
  findDistribution Sample.db Sample.now (set_teamId (Sample.request 7) (Some 4)) =
  ([call_team_findFirstOrThrow 4 7], inl NotFoundError).
Proof.
  assert (Hnot : forall t, In t (teams Sample.db) -> Team.id t = 4 ->
                           is_member 7 t = false).
  { intros t [<- | [<- | []]] E; [discriminate E | reflexivity]. }
  split; [reflexivity |]. split; [exact Hnot |].
  exact (proj1 (C3_non_member_rejected Sample.db Sample.now
                  (set_teamId (Sample.request 7) (Some 4)) 4 eq_refl Hnot)).
Defined.

(* ================================================================== *)
(** ** The period *)

Lemma findMany_returns db w skip take c d :
  valid w = true -> 0 <= skip ->
  exists rows, distributionStatement_findMany db w skip take c d = inr rows.
Proof.
  intros Hv H. unfold distributionStatement_findMany. rewrite Hv.
  destruct (skip <? 0) eqn:E; [apply Z.ltb_lt in E; lia |].
  eexists. reflexivity.
Qed.

Lemma whereClause_parsed now o team p n :
  period o = Some p -> p <> "" ->
  Js.parseInt (Js.replace_d_end p) = Some n ->
  whereClause now o team =
  ([], inr (assign (whereClause_facets o team)
                   (createdAt_gte (Luxon.toISO (startOfPeriod now n))))).
Proof.
  intros Hp Hne Hn. unfold whereClause. rewrite Hp.
  destruct p as [| c p]; [congruence |].
  cbn [Js.truthy]. now rewrite Hn.
Qed.

(** Once the team is resolved and the filter built, the listing and
    the count are the two calls made, whatever they answer. *)
Lemma findDistribution_log db now o team w :
  snd (resolve_team db o) = inr team ->
  whereClause now o team = ([], inr w) ->
  fst (findDistribution db now o) =
  fst (resolve_team db o) ++
  [ call_findMany w (skip_of o) (perPage_of o)
                  (orderByColumn_of o) (orderByDirection_of o);
    call_count w ].
Proof.
  intros Ht Ew.
  unfold findDistribution, skip_of, perPage_of, orderByColumn_of,
    orderByDirection_of, bind, Promise_all, issue, ret.
  destruct (resolve_team db o) as [l1 [e | team']]; cbn [snd] in Ht;
    [discriminate |].
  injection Ht as ->. rewrite Ew. cbn [fst snd app].
  destruct (distributionStatement_findMany db w _ _ _ _) as [e | rows];
    [reflexivity |].
  destruct (distributionStatement_count db w) as [e | n]; reflexivity.
Qed.

(** A filter with a bound on [createdAt] that the client accepts: the
    bound is a date, and rows before it do not match. *)
Lemma assigned_bound_valid w iso :
  valid (assign w (createdAt_gte iso)) = true ->
  exists t, iso = Some t /\
            forall us r, matches us (assign w (createdAt_gte iso)) r = true ->
                         t <= DistributionStatement.createdAt r.
Proof.
  intros Hv.
  assert (Hi : valid (createdAt_gte iso) = true).
  { destruct w; cbn [assign valid forallb] in Hv;
      rewrite ?forallb_app, ?andb_true_iff in Hv; cbn [forallb] in Hv;
      rewrite ?andb_true_iff in Hv; tauto. }
  destruct iso as [t |]; [| discriminate].
  exists t. split; [reflexivity |].
  intros us r Hm. rewrite matches_assign in Hm.
  apply andb_true_iff in Hm. destruct Hm as [_ Hm].
  cbn [matches] in Hm. now apply Z.leb_le in Hm.
Qed.

(** C4, as the code has it: the period is not checked against the enum
    at run time, it is parsed.  By this counterexample the period
    '200d', which is outside the enum, is not rejected: the listing and
    the count are issued with a lower bound two hundred days back, and
    the row of user 8, a hundred days old, is returned. *)
Lemma C4_period_200d_accepted :
  ~ PeriodSelectorValue "200d" /\
  findDistribution Sample.db Sample.now
                   (set_period (Sample.request 8) (Some "200d")) =
  (let w := assign (whereClause_facets (Sample.request 8) None)
                   (createdAt_gte (Some 1682640000000)) in
   ([call_findMany w 0 10 col_id asc; call_count w],
    inr (mkResponse [Sample.row3] 1 1 10 (Js.Int 1)))).
Proof.
  split.
  - intros [H | [H | [H | H]]]; discriminate H.
  - vm_compute. reflexivity.
Qed.

(** C4 (amended): the function does not check the period against the
    enum.  A non-empty period whose text, without a final [d],
    [parseInt] reads as the integer [n] is taken as a count of [n] days
    whether or not it belongs to the enum (for the members '7d', '14d'
    and '30d' of the enum, [n] is 7, 14 and 30): when the team is
    resolved, the listing and the count are the calls made next, both
    with the filter that carries [startOfPeriod now n] as the lower
    bound of [createdAt]; and when they answer, that bound is a date and
    no row before it is returned or counted. *)
Theorem C4_period_parsed_as_days db now o p n team :
  period o = Some p -> p <> "" ->
  Js.parseInt (Js.replace_d_end p) = Some n ->
  snd (resolve_team db o) = inr team ->
  (PeriodSelectorValue p -> n = 7 \/ n = 14 \/ n = 30) /\
  fst (findDistribution db now o) =
  fst (resolve_team db o) ++
  [ call_findMany
      (assign (whereClause_facets o team)
              (createdAt_gte (Luxon.toISO (startOfPeriod now n))))
      (skip_of o) (perPage_of o) (orderByColumn_of o) (orderByDirection_of o);
    call_count
      (assign (whereClause_facets o team)
              (createdAt_gte (Luxon.toISO (startOfPeriod now n)))) ] /\
  (forall log res,
      findDistribution db now o = (log, inr res) ->
      Luxon.toISO (startOfPeriod now n) = Some (Luxon.ts (startOfPeriod now n)) /\
      (forall r, In r (data res) ->
                 Luxon.ts (startOfPeriod now n) <= DistributionStatement.createdAt r) /\
      count res =
      Z.of_nat (List.length
        (filter (fun r => matches (users db) (whereClause_facets o team) r
                          && (Luxon.ts (startOfPeriod now n)
                              <=? DistributionStatement.createdAt r))
                (distributionStatements db)))).
Proof.
  intros Hp Hne Hn Ht.
  pose proof (whereClause_parsed now o team p n Hp Hne Hn) as Ew.
  split; [| split].
  - intros [-> | [-> | [-> | ->]]]; [congruence | | |];
      vm_compute in Hn; injection Hn as <-; auto.
  - exact (findDistribution_log db now o team _ Ht Ew).
  - intros log res H.
    destruct (findDistribution_inr _ _ _ _ _ H)
      as (team' & w & Ht' & Ew' & _ & Ef' & Hc & _).
    rewrite Ht in Ht'. injection Ht' as <-.
    rewrite Ew in Ew'. injection Ew' as <-.
    destruct (assigned_bound_valid _ _ (findMany_valid _ _ _ _ _ _ _ Ef'))
      as (t & Eiso & Hb).
    assert (Et : t = Luxon.ts (startOfPeriod now n)).
    { unfold Luxon.toISO in Eiso.
      destruct (_ && _) in Eiso; [now injection Eiso as <- | discriminate]. }
    subst t. split; [exact Eiso |]. split.
    + intros r Hr. apply (findMany_sound _ _ _ _ _ _ _ Ef') in Hr.
      apply matching_In in Hr. destruct Hr as [_ Hm]. exact (Hb _ _ Hm).
    + rewrite Hc. unfold matching. do 2 f_equal.
      apply filter_ext. intros r. rewrite matches_assign, Eiso. reflexivity.
Qed.

Lemma sample_200d :
  findDistribution Sample.db Sample.now
                   (set_period (Sample.request 8) (Some "200d")) =
  (let w := assign (whereClause_facets (Sample.request 8) None)
                   (createdAt_gte (Some 1682640000000)) in
   ([call_findMany w 0 10 col_id asc; call_count w],
    inr (mkResponse [Sample.row3] 1 1 10 (Js.Int 1)))).
Proof. vm_compute. reflexivity. Qed.

(** C4 (amended) on the sample database, at the period '200d'. *)
Lemma C4_period_parsed_as_days_witness :
  period (set_period (Sample.request 8) (Some "200d")) = Some "200d" /\
  "200d" <> "" /\
  Js.parseInt (Js.replace_d_end "200d") = Some 200 /\
  snd (resolve_team Sample.db (set_period (Sample.request 8) (Some "200d")))
  = inr None /\
  fst (findDistribution Sample.db Sample.now
         (set_period (Sample.request 8) (Some "200d"))) =
  (let w := assign (whereClause_facets (Sample.request 8) None)
                   (createdAt_gte (Some 1682640000000)) in
   [call_findMany w 0 10 col_id asc; call_count w]) /\
  forall r, In r [Sample.row3] ->
            1682640000000 <= DistributionStatement.createdAt r.
Proof.
  split; [reflexivity |]. split; [discriminate |].
  split; [reflexivity |]. split; [reflexivity |].
  destruct (C4_period_parsed_as_days Sample.db Sample.now
              (set_period (Sample.request 8) (Some "200d")) "200d" 200 None
              eq_refl ltac:(discriminate) eq_refl eq_refl)
    as (_ & Hlog & Hret).
  split; [exact Hlog |].
  exact (proj1 (proj2 (Hret _ (mkResponse [Sample.row3] 1 1 10 (Js.Int 1))
                         sample_200d))).
Defined.

(* ================================================================== *)
(** ** Counting and paging *)

Lemma Math_ceil_div_is_ceiling a b :
  b <> 0 ->
  exists n, Js.Math_ceil_div a b = Js.Int n /\ is_ceiling n a b.
Proof.
  intros Hb. unfold Js.Math_ceil_div.
  destruct (b =? 0) eqn:E; [apply Z.eqb_eq in E; contradiction |].
  exists (- (- a / b)). split; [reflexivity |].
  pose proof (Z.div_mod (- a) b Hb) as Hdm.
  unfold is_ceiling. split; intros Hs.
  - pose proof (Z.mod_pos_bound (- a) b Hs). nia.
  - pose proof (Z.mod_neg_bound (- a) b Hs). nia.
Qed.

(** A quotient has one ceiling. *)
Lemma is_ceiling_unique n m a b :
  b <> 0 -> is_ceiling n a b -> is_ceiling m a b -> n = m.
Proof.
  unfold is_ceiling. intros Hb [Hn1 Hn2] [Hm1 Hm2].
  destruct (Z_lt_le_dec 0 b) as [Hs | Hs].
  - specialize (Hn1 Hs). specialize (Hm1 Hs). nia.
  - assert (Hs' : b < 0) by lia.
    specialize (Hn2 Hs'). specialize (Hm2 Hs'). nia.
Qed.

Lemma Math_ceil_div_zero a :
  0 <= a ->
  Js.Math_ceil_div a 0 = if a =? 0 then Js.NaN else Js.Infinity.
Proof.
  intros Ha. unfold Js.Math_ceil_div. cbn [Z.eqb].
  destruct (a =? 0) eqn:E; [reflexivity |].
  apply Z.eqb_neq in E.
  destruct (0 <? a) eqn:E'; [reflexivity |].
  apply Z.ltb_ge in E'. lia.
Qed.

(** C5: a call that returns issued the listing and the count with one
    and the same filter; [count] is the number of rows of the database
    that satisfy it and every returned row is one of them; the same
    call with any other [page] and [perPage] counts with that filter
    and reports the same [count]; [totalPages] is the ceiling of
    [count / perPage] (for [perPage = 0] the IEEE value of that
    quotient: [NaN] for no rows, otherwise [Infinity]). *)
Theorem C5_count_and_totalPages db now o log res :
  findDistribution db now o = (log, inr res) ->
  exists w,
    (exists skip take c d,
        log = fst (resolve_team db o) ++
              [call_findMany w skip take c d; call_count w]) /\
    count res = Z.of_nat (List.length (matching db w)) /\
    (forall r, In r (data res) -> In r (matching db w)) /\
    (forall pg pp log' res',
        findDistribution db now (set_page (set_perPage o pp) pg) = (log', inr res') ->
        In (call_count w) log' /\ count res' = count res) /\
    res_perPage res = Js.default 10 (perPage o) /\
    (res_perPage res <> 0 ->
     exists n, totalPages res = Js.Int n /\
               is_ceiling n (count res) (res_perPage res)) /\
    (res_perPage res = 0 ->
     totalPages res = if count res =? 0 then Js.NaN else Js.Infinity).
Proof.
  intros H.
  destruct (findDistribution_inr _ _ _ _ _ H)
    as (team & w & Ht & Ew & Hlog & Ef & Hc & _ & Hpp & Htp).
  exists w.
  split; [do 4 eexists; exact Hlog |].
  split; [exact Hc |].
  split; [intros r; apply (findMany_sound _ _ _ _ _ _ _ Ef) |].
  split.
  - intros pg pp log' res' H'.
    destruct (findDistribution_inr _ _ _ _ _ H')
      as (team' & w' & Ht' & Ew' & Hlog' & _ & Hc' & _).
    change (resolve_team db (set_page (set_perPage o pp) pg))
      with (resolve_team db o) in Ht', Hlog'.
    change (whereClause now (set_page (set_perPage o pp) pg) team')
      with (whereClause now o team') in Ew'.
    rewrite Ht in Ht'. injection Ht' as <-.
    rewrite Ew in Ew'. injection Ew' as <-.
    split; [| congruence].
    in_log Hlog'.
  - split; [exact Hpp |]. rewrite Htp, Hpp. split.
    + apply Math_ceil_div_is_ceiling.
    + intros ->. apply Math_ceil_div_zero. rewrite Hc. lia.
Qed.

(** C5 on the sample database: team 3 seen by user 7, one row a page. *)
Lemma C5_count_and_totalPages_witness :
  (exists log,
      findDistribution Sample.db Sample.now
        (set_perPage (set_teamId (Sample.request 7) (Some 3)) (Some 1)) =
      (log, inr (mkResponse [Sample.row2] 2 1 1 (Js.Int 2)))) /\
  exists w,
    2 = Z.of_nat (List.length (matching Sample.db w)) /\
    forall pg pp log' res',
      findDistribution Sample.db Sample.now
        (set_page (set_perPage
                     (set_perPage (set_teamId (Sample.request 7) (Some 3)) (Some 1))
                     pp) pg) = (log', inr res') ->
      In (call_count w) log' /\ count res' = 2.
Proof.
  assert (E : exists log,
      findDistribution Sample.db Sample.now
        (set_perPage (set_teamId (Sample.request 7) (Some 3)) (Some 1)) =
      (log, inr (mkResponse [Sample.row2] 2 1 1 (Js.Int 2)))).
  { eexists. vm_compute. reflexivity. }
  split; [exact E |].
  destruct E as [log E].
  destruct (C5_count_and_totalPages _ _ _ _ _ E) as (w & _ & Hc & _ & Hind & _).
  exists w. split; [exact Hc | exact Hind].
Defined.

(* ================================================================== *)
(** ** Free-text search *)

Lemma searchFilter_exists us query r :
  matches us (searchFilter query) r =
  existsb (fun f => matches us (contains_insensitive f query) r)
          [ proyecto; isrc; marketingOwner; nombreDistribucion;
            numeroDeCatalogo; tituloCatalogo; proyecto; tipoDeIngreso ].
Proof.
  unfold searchFilter, contains_key.
  cbn [matches forallb existsb]. now rewrite !andb_true_r.
Qed.

(** Whatever the query, the search accepts a row only for a value in
    one of the seven columns. *)
Lemma searchFilter_value us q r :
  matches us (searchFilter (Some q)) r = true ->
  exists f, In f searched_fields /\ DistributionStatement.text r f <> None.
Proof.
  rewrite searchFilter_exists, existsb_exists.
  intros [f [_ Hm]]. exists f.
  split; [destruct f; simpl; tauto | now apply contains_insensitive_value in Hm].
Qed.

Lemma searchFilter_iff us q r :
  plain q = true ->
  (matches us (searchFilter (Some q)) r = true <->
   exists f s, In f searched_fields /\
               DistributionStatement.text r f = Some s /\ ci_substring q s).
Proof.
  intros Hq. rewrite searchFilter_exists, existsb_exists. split.
  - intros [f [_ Hm]]. apply (contains_insensitive_iff _ _ _ _ Hq) in Hm.
    destruct Hm as [s [Hs Hc]]. exists f, s.
    split; [destruct f; simpl; tauto | now split].
  - intros (f & s & _ & Hs & Hc). exists f. split.
    + destruct f; simpl; tauto.
    + apply (contains_insensitive_iff _ _ _ _ Hq). now exists s.
Qed.

(** C6, as the code has it: the query goes into the pattern of [ILIKE]
    as it is.  By this counterexample the query [_], a pattern for any
    one character, finds row 1 of user 7, none of whose seven columns
    holds an underscore. *)
Lemma C6_underscore_matches_any_character :
  "_" <> "" /\
  matches (users Sample.db) (searchFilter (Some "_")) Sample.row1 = true /\
  ~ (exists f s, In f searched_fields /\
                 DistributionStatement.text Sample.row1 f = Some s /\
                 ci_substring "_" s) /\
  snd (findDistribution Sample.db Sample.now
         (set_query (Sample.request 7) (Some "_"))) =
  inr (mkResponse [Sample.row1] 1 1 10 (Js.Int 1)).
Proof.
  split; [discriminate |]. split; [reflexivity |]. split; [| reflexivity].
  intros (f & s & _ & Hs & pre & post & H).
  destruct f; try discriminate Hs. injection Hs as <-.
  cbn in H.
  repeat (destruct pre as [| ? pre]; cbn in H;
          [discriminate H | injection H as _ H]).
  destruct pre; discriminate H.
Qed.

(** C6 (amended): for a non-empty query that is plain text, with none
    of the characters [%], [_] and backslash, the search filter accepts
    a row exactly when one of the seven text columns holds a value in
    which the query occurs as a substring, case ignored; every returned
    row is accepted by it. *)
Theorem C6_plain_query_is_a_substring db now o q :
  query o = Some q -> q <> "" -> plain q = true ->
  (forall us r,
      matches us (searchFilter (query o)) r = true <->
      exists f s, In f searched_fields /\
                  DistributionStatement.text r f = Some s /\ ci_substring q s) /\
  (forall log res,
      findDistribution db now o = (log, inr res) ->
      forall r, In r (data res) ->
      exists f s, In f searched_fields /\
                  DistributionStatement.text r f = Some s /\ ci_substring q s).
Proof.
  intros Hq _ Hplain. rewrite Hq. split.
  - intros us r. now apply searchFilter_iff.
  - intros log res H r Hr.
    destruct (findDistribution_data _ _ _ _ _ H) as (team & w & _ & Ew & Hd).
    destruct (Hd r Hr) as [_ Hm].
    destruct (whereClause_parts _ _ _ _ _ _ Ew Hm) as (Hs & _).
    rewrite Hq in Hs. now apply searchFilter_iff in Hs.
Qed.

(** C6 (amended) on the sample database: the query [isrc-123] finds the
    row whose ISRC code is [ISRC-123]. *)
Lemma C6_plain_query_is_a_substring_witness :
  query (set_query (Sample.request 7) (Some "isrc-123")) = Some "isrc-123" /\
  "isrc-123" <> "" /\ plain "isrc-123" = true /\
  matches (users Sample.db) (searchFilter (Some "isrc-123")) Sample.row1 = true.
Proof.
  split; [reflexivity |]. split; [discriminate |]. split; [reflexivity |].
  apply (proj1 (C6_plain_query_is_a_substring Sample.db Sample.now
                  (set_query (Sample.request 7) (Some "isrc-123")) "isrc-123"
                  eq_refl ltac:(discriminate) eq_refl)).
  exists isrc, "ISRC-123". split; [simpl; tauto |]. split; [reflexivity |].
  exists "", "". reflexivity.
Defined.

(* ================================================================== *)
(** ** Facets *)

Lemma present_Some ids : ids <> [] -> present (Some ids) = true.
Proof. destruct ids; [congruence | reflexivity]. Qed.

(** C7: when [platformIds] is a non-empty array, the filter given to
    the listing and to the count accepts only rows that have a platform
    association whose [platformId] is in the array, so every returned
    row has one and a row without one is not returned, whatever else
    it satisfies; likewise for [territoryIds] and the territory
    associations. *)
Theorem C7_facets_existential db now o log res :
  findDistribution db now o = (log, inr res) ->
  exists w,
    In (call_count w) log /\
    (exists skip take c d, In (call_findMany w skip take c d) log) /\
    (forall ids, platformIds o = Some ids -> ids <> [] ->
       (forall r, matches (users db) w r = true -> has_platform_in ids r) /\
       (forall r, In r (data res) -> has_platform_in ids r) /\
       (forall r, ~ has_platform_in ids r -> ~ In r (data res))) /\
    (forall ids, territoryIds o = Some ids -> ids <> [] ->
       (forall r, matches (users db) w r = true -> has_territory_in ids r) /\
       (forall r, In r (data res) -> has_territory_in ids r) /\
       (forall r, ~ has_territory_in ids r -> ~ In r (data res))).
Proof.
  intros H.
  destruct (findDistribution_inr _ _ _ _ _ H)
    as (team & w & _ & Ew & Hlog & Ef & _).
  assert (Hd : forall r, In r (data res) -> matches (users db) w r = true).
  { intros r Hr. apply (findMany_sound _ _ _ _ _ _ _ Ef) in Hr.
    now apply matching_In in Hr. }
  exists w.
  split; [in_log Hlog |].
  split; [do 4 eexists; in_log Hlog |].
  split; intros ids Hids Hne.
  - assert (Hw : forall r, matches (users db) w r = true -> has_platform_in ids r).
    { intros r Hm.
      destruct (whereClause_parts _ _ _ _ _ _ Ew Hm) as (_ & _ & _ & Hp & _).
      rewrite Hids in Hp. specialize (Hp (present_Some ids Hne)).
      now apply platforms_some_in_iff in Hp. }
    split; [exact Hw |]. split.
    + intros r Hr. apply Hw, Hd, Hr.
    + intros r Hn Hr. apply Hn, Hw, Hd, Hr.
  - assert (Hw : forall r, matches (users db) w r = true -> has_territory_in ids r).
    { intros r Hm.
      destruct (whereClause_parts _ _ _ _ _ _ Ew Hm) as (_ & _ & _ & _ & Hp).
      rewrite Hids in Hp. specialize (Hp (present_Some ids Hne)).
      now apply territories_some_in_iff in Hp. }
    split; [exact Hw |]. split.
    + intros r Hr. apply Hw, Hd, Hr.
    + intros r Hn Hr. apply Hn, Hw, Hd, Hr.
Qed.

(** C7 on the sample database: team 3 seen by user 7 with
    [platformIds = [6]]: row 3 has platform 6 and is returned, row 2 of
    the same team has no platform and is left out. *)
Lemma C7_facets_existential_witness :
  (exists log,
      findDistribution Sample.db Sample.now
        (set_platformIds (set_teamId (Sample.request 7) (Some 3)) (Some [6])) =
      (log, inr (mkResponse [Sample.row3] 1 1 10 (Js.Int 1)))) /\
  (forall r, In r [Sample.row3] -> has_platform_in [6] r) /\
  (forall r, ~ has_platform_in [6] r -> ~ In r [Sample.row3]).
Proof.
  assert (E : exists log,
      findDistribution Sample.db Sample.now
        (set_platformIds (set_teamId (Sample.request 7) (Some 3)) (Some [6])) =
      (log, inr (mkResponse [Sample.row3] 1 1 10 (Js.Int 1)))).
  { eexists. vm_compute. reflexivity. }
  split; [exact E |].
  destruct E as [log E].
  destruct (C7_facets_existential _ _ _ _ _ E) as (w & _ & _ & Hp & _).
  destruct (Hp [6] eq_refl ltac:(discriminate)) as (_ & H1 & H2).
  split; [exact H1 | exact H2].
Defined.

(* ================================================================== *)
(** ** The period of seven days *)

(** Outside a gap of the zone, [fixOffset] finds the instant whose
    wall-clock reading is the one asked for. *)
Lemma fixOffset_exact l o tz :
  Luxon.in_gap l o tz = false ->
  snd (Luxon.fixOffset l o tz) = tz (fst (Luxon.fixOffset l o tz)) /\
  fst (Luxon.fixOffset l o tz) + snd (Luxon.fixOffset l o tz) * 60 * 1000 = l.
Proof.
  unfold Luxon.in_gap, Luxon.fixOffset. cbv zeta.
  destruct (o =? tz (l - o * 60 * 1000)) eqn:E1; cbn [negb andb fst snd].
  - intros _. apply Z.eqb_eq in E1. split; [exact E1 | lia].
  - replace (l - o * 60 * 1000 - (tz (l - o * 60 * 1000) - o) * 60 * 1000)
      with (l - tz (l - o * 60 * 1000) * 60 * 1000) by lia.
    destruct (tz (l - o * 60 * 1000)
              =? tz (l - tz (l - o * 60 * 1000) * 60 * 1000)) eqn:E2;
      cbn [negb fst snd]; [| discriminate].
    intros _. apply Z.eqb_eq in E2. split; [exact E2 | lia].
Qed.

(** In a zone whose offset never changes there is no gap. *)
Lemma fixOffset_fixed l o tz :
  (forall t, tz t = o) -> Luxon.fixOffset l o tz = (l - o * 60 * 1000, o).
Proof.
  intros H. unfold Luxon.fixOffset. cbv zeta.
  now rewrite H, Z.eqb_refl.
Qed.

Lemma minus_days_exact dt n :
  Luxon.in_gap (Luxon.localTS dt - n * Luxon.msPerDay)
               (Luxon.o dt) (Luxon.zone dt) = false ->
  Luxon.wall_clock (Luxon.minus_days dt n)
  = Luxon.localTS dt - n * Luxon.msPerDay /\
  Luxon.localTS (Luxon.minus_days dt n)
  = Luxon.localTS dt - n * Luxon.msPerDay.
Proof.
  intros H. apply fixOffset_exact in H. destruct H as [Ho Hl].
  unfold Luxon.wall_clock, Luxon.localTS, Luxon.minus_days in *.
  destruct (Luxon.fixOffset _ _ _) as [t o'].
  cbn [fst snd Luxon.ts Luxon.o Luxon.zone] in *. rewrite <- Ho. lia.
Qed.

Lemma startOf_day_exact dt :
  Luxon.in_gap (Luxon.localTS dt / Luxon.msPerDay * Luxon.msPerDay)
               (Luxon.o dt) (Luxon.zone dt) = false ->
  Luxon.wall_clock (Luxon.startOf_day dt)
  = Luxon.localTS dt / Luxon.msPerDay * Luxon.msPerDay.
Proof.
  intros H. apply fixOffset_exact in H. destruct H as [Ho Hl].
  unfold Luxon.wall_clock, Luxon.startOf_day in *.
  destruct (Luxon.fixOffset _ _ _) as [t o'].
  cbn [fst snd Luxon.ts Luxon.o Luxon.zone] in *. rewrite <- Ho. lia.
Qed.

(** The bound of a period in a zone whose offset never changes. *)
Lemma startOfPeriod_fixed now n :
  (forall t, Luxon.zone now t = Luxon.o now) ->
  Luxon.ts (startOfPeriod now n) =
  (Luxon.ts now - n * Luxon.msPerDay + Luxon.o now * 60 * 1000)
  / Luxon.msPerDay * Luxon.msPerDay - Luxon.o now * 60 * 1000.
Proof.
  intros H. unfold startOfPeriod, Luxon.startOf_day, Luxon.minus_days.
  rewrite (fixOffset_fixed _ _ _ H). cbn [Luxon.o Luxon.zone].
  rewrite (fixOffset_fixed _ _ _ H). cbn [Luxon.ts].
  unfold Luxon.localTS. cbn [Luxon.ts Luxon.o].
  do 3 f_equal. lia.
Qed.

(** Seven days back across the end of daylight saving time: the bound
    is midnight in New York on 1 November, 04:00 UTC. *)
Example startOfPeriod_across_a_change :
  Luxon.ts (startOfPeriod NewYork.now 7) = 1698811200000 /\
  Luxon.toISO (startOfPeriod NewYork.now 7) = Some 1698811200000.
Proof. split; reflexivity. Qed.

(** C8: with [period = '7d'] the day count is 7 and the bound is what
    luxon computes, once, from the [now] of the call: the start of the
    day of [now] minus seven days.  It is part of the filter that both
    the listing and the count are issued with, so a row created before
    it is neither returned nor counted.  Unless a step falls into a gap
    of the zone, the bound is a midnight on the wall clock of the zone,
    the one that begins the day on which the wall clock read seven
    calendar days less than at the call; in a zone whose offset never
    changes it lies at most a day before the instant seven times 24
    hours before the call. *)
Theorem C8_period_7d db now o log res :
  period o = Some "7d" ->
  findDistribution db now o = (log, inr res) ->
  let day7 := Luxon.minus_days now 7 in
  let bound := Luxon.ts (Luxon.startOf_day day7) in
  (exists w,
      In (call_count w) log /\
      (exists skip take c d, In (call_findMany w skip take c d) log) /\
      count res = Z.of_nat (List.length (matching db w)) /\
      forall r, matches (users db) w r = true ->
                bound <= DistributionStatement.createdAt r) /\
  (forall r, In r (data res) -> bound <= DistributionStatement.createdAt r) /\
  (forall r, DistributionStatement.createdAt r < bound -> ~ In r (data res)) /\
  (Luxon.in_gap (Luxon.localTS now - 7 * Luxon.msPerDay)
                (Luxon.o now) (Luxon.zone now) = false ->
   Luxon.in_gap (Luxon.localTS day7 / Luxon.msPerDay * Luxon.msPerDay)
                (Luxon.o day7) (Luxon.zone day7) = false ->
   Luxon.wall_clock (Luxon.startOf_day day7) mod Luxon.msPerDay = 0 /\
   Luxon.wall_clock (Luxon.startOf_day day7)
   <= Luxon.localTS now - 7 * Luxon.msPerDay
   < Luxon.wall_clock (Luxon.startOf_day day7) + Luxon.msPerDay) /\
  ((forall t, Luxon.zone now t = Luxon.o now) ->
   (bound + Luxon.o now * 60 * 1000) mod Luxon.msPerDay = 0 /\
   bound <= Luxon.ts now - 7 * Luxon.msPerDay < bound + Luxon.msPerDay).
Proof.
  intros Hp H day7 bound.
  destruct (findDistribution_inr _ _ _ _ _ H)
    as (team & w & _ & Ew & Hlog & Ef & Hc & _).
  rewrite (whereClause_parsed now o team "7d" 7 Hp) in Ew;
    [| discriminate | reflexivity].
  injection Ew as <-.
  destruct (assigned_bound_valid _ _ (findMany_valid _ _ _ _ _ _ _ Ef))
    as (t & Eiso & Hb).
  assert (Et : t = bound).
  { unfold Luxon.toISO in Eiso.
    destruct (_ && _) in Eiso; [now injection Eiso as <- | discriminate]. }
  subst t.
  set (w := assign _ _) in *.
  assert (Hd : forall r, In r (data res) ->
                         bound <= DistributionStatement.createdAt r).
  { intros r Hr. apply (Hb (users db)).
    apply (findMany_sound _ _ _ _ _ _ _ Ef) in Hr.
    now apply matching_In in Hr. }
  assert (Hday : 0 < Luxon.msPerDay) by reflexivity.
  split; [| split; [| split; [| split]]].
  - exists w.
    split; [in_log Hlog |].
    split; [do 4 eexists; in_log Hlog |].
    split; [exact Hc | exact (Hb (users db))].
  - exact Hd.
  - intros r Hlt Hr. specialize (Hd r Hr). lia.
  - intros G1 G2.
    destruct (minus_days_exact now 7 G1) as [_ Hl].
    pose proof (startOf_day_exact day7 G2) as Hs.
    fold day7 in Hl. rewrite Hs, Hl. split.
    + apply Z.mod_mul. lia.
    + pose proof (Z.div_mod (Luxon.localTS now - 7 * Luxon.msPerDay)
                            Luxon.msPerDay ltac:(lia)).
      pose proof (Z.mod_pos_bound (Luxon.localTS now - 7 * Luxon.msPerDay)
                                  Luxon.msPerDay Hday).
      lia.
  - intros Hz. unfold bound, day7.
    change (Luxon.startOf_day (Luxon.minus_days now 7))
      with (startOfPeriod now 7).
    rewrite (startOfPeriod_fixed now 7 Hz).
    set (x := Luxon.ts now - 7 * Luxon.msPerDay + Luxon.o now * 60 * 1000).
    pose proof (Z.div_mod x Luxon.msPerDay ltac:(lia)).
    pose proof (Z.mod_pos_bound x Luxon.msPerDay Hday).
    split.
    + replace (x / Luxon.msPerDay * Luxon.msPerDay - Luxon.o now * 60 * 1000
               + Luxon.o now * 60 * 1000)
        with (x / Luxon.msPerDay * Luxon.msPerDay) by lia.
      apply Z.mod_mul. lia.
    + unfold x in *. lia.
Qed.

(** C8 on the sample database: of the two rows user 7 sees in team 3,
    the one that is five days old is returned and the one that is a
    hundred days old is not. *)
Lemma C8_period_7d_witness :
  period (set_period (set_teamId (Sample.request 7) (Some 3)) (Some "7d"))
  = Some "7d" /\
  (exists log,
      findDistribution Sample.db Sample.now
        (set_period (set_teamId (Sample.request 7) (Some 3)) (Some "7d")) =
      (log, inr (mkResponse [Sample.row2] 1 1 10 (Js.Int 1)))) /\
  (forall r, In r [Sample.row2] ->
             1699315200000 <= DistributionStatement.createdAt r) /\
  forall r, DistributionStatement.createdAt r < 1699315200000 ->
            ~ In r [Sample.row2].
Proof.
  assert (E : exists log,
      findDistribution Sample.db Sample.now
        (set_period (set_teamId (Sample.request 7) (Some 3)) (Some "7d")) =
      (log, inr (mkResponse [Sample.row2] 1 1 10 (Js.Int 1)))).
  { eexists. vm_compute. reflexivity. }
  split; [reflexivity |]. split; [exact E |].
  destruct E as [log E].
  destruct (C8_period_7d Sample.db Sample.now
              (set_period (set_teamId (Sample.request 7) (Some 3)) (Some "7d"))
              log _ eq_refl E) as (_ & Hd & Hx & _).
  split; [exact Hd | exact Hx].
Defined.

(* ================================================================== *)
(** ** The page size *)

(** A page size of zero passed by the caller is not replaced by the
    default: the call returns and [totalPages] is no integer. *)
Lemma perPage_zero_totalPages db now o log res :
  perPage o = Some 0 ->
  findDistribution db now o = (log, inr res) ->
  data res = [] /\
  totalPages res = if count res =? 0 then Js.NaN else Js.Infinity.
Proof.
  intros Hpp H.
  destruct (findDistribution_inr _ _ _ _ _ H)
    as (team & w & _ & _ & _ & Ef & Hc & _ & _ & Htp).
  rewrite Hpp in Ef, Htp. cbn [Js.default] in Ef, Htp. split.
  - unfold distributionStatement_findMany in Ef.
    destruct (negb (valid w) || (skip_of o <? 0)); [discriminate |].
    cbn in Ef. now injection Ef as <-.
  - rewrite Htp. apply Math_ceil_div_zero. rewrite Hc. lia.
Qed.

(** C9: the division is reached with a zero divisor.  User 7 asks for
    pages of zero rows; the call is not rejected, one row is counted and
    [totalPages] is [Math.ceil(1 / 0)], that is [Infinity]. *)
Theorem C9_perPage_zero_divides :
  findDistribution Sample.db Sample.now
                   (set_perPage (Sample.request 7) (Some 0)) =
  (let w := whereClause_facets (Sample.request 7) None in
   ([call_findMany w 0 0 col_id asc; call_count w],
    inr (mkResponse [] 1 1 0 Js.Infinity))).
Proof. vm_compute. reflexivity. Qed.

(** C10: an empty array of platform ids, or of territory ids, is the
    same request as one without that parameter: the storage calls
    issued and the outcome are equal. *)
Theorem C10_empty_facet_is_absent db now o :
  findDistribution db now (set_platformIds o (Some [])) =
  findDistribution db now (set_platformIds o None) /\
  findDistribution db now (set_territoryIds o (Some [])) =
  findDistribution db now (set_territoryIds o None).
Proof. split; reflexivity. Qed.

(* ================================================================== *)
(** ** Pages *)












(* ================================================================== *)
(** ** Order *)

Lemma precedes_total c d a b :
  precedes c d a b = false -> precedes c d b a = true.
Proof.
  unfold precedes. destruct d; rewrite Z.leb_gt, Z.leb_le; lia.
Qed.

Lemma precedes_trans c d a b e :
  precedes c d a b = true -> precedes c d b e = true ->
  precedes c d a e = true.
Proof.
  unfold precedes. destruct d; rewrite !Z.leb_le; lia.
Qed.

Lemma precedes_tb_total c d tb a b :
  precedes_tb c d tb a b = false -> precedes_tb c d tb b a = true.
Proof.
  unfold precedes_tb, precedes.
  destruct d; rewrite andb_false_iff, orb_false_iff, andb_true_iff,
    orb_true_iff, !negb_false_iff, negb_true_iff, !Z.leb_gt, !Z.leb_le; lia.
Qed.

Lemma precedes_tb_trans c d tb a b e :
  precedes_tb c d tb a b = true -> precedes_tb c d tb b e = true ->
  precedes_tb c d tb a e = true.
Proof.
  unfold precedes_tb, precedes.
  destruct d; rewrite !andb_true_iff, !orb_true_iff, !negb_true_iff,
    !Z.leb_gt, !Z.leb_le; lia.
Qed.

Lemma precedes_tb_precedes c d tb a b :
  precedes_tb c d tb a b = true -> precedes c d a b = true.
Proof. unfold precedes_tb. now intros H%andb_true_iff. Qed.

Lemma insert_row_sorted c d tb x l :
  StronglySorted (fun a b => precedes_tb c d tb a b = true) l ->
  StronglySorted (fun a b => precedes_tb c d tb a b = true)
                 (insert_row c d tb x l).
Proof.
  induction 1 as [| y l Hs IH Hy]; simpl.
  - constructor; constructor.
  - destruct (precedes_tb c d tb x y) eqn:E.
    + constructor; [now constructor |].
      constructor; [exact E |].
      eapply Forall_impl; [| exact Hy].
      intros z Hz. now apply precedes_tb_trans with y.
    + constructor; [exact IH |].
      apply Forall_forall. intros z Hz. apply insert_row_In in Hz.
      destruct Hz as [-> | Hz]; [now apply precedes_tb_total |].
      now apply (proj1 (Forall_forall _ _) Hy).
Qed.

Lemma StronglySorted_weaken {A} (R R' : A -> A -> Prop) l :
  (forall a b, R a b -> R' a b) ->
  StronglySorted R l -> StronglySorted R' l.
Proof.
  intros H. induction 1 as [| x l Hs IH Hx]; constructor; [exact IH |].
  eapply Forall_impl; [| exact Hx]. intros y. apply H.
Qed.

Lemma order_rows_ordered c d tb l : ordered_by c d (order_rows c d tb l).
Proof.
  apply (StronglySorted_weaken (fun a b => precedes_tb c d tb a b = true));
    [intros a b; apply precedes_tb_precedes |].
  unfold order_rows. induction l as [| x l IH]; simpl.
  - constructor.
  - now apply insert_row_sorted.
Qed.

Section Segments.

Context {A : Type} (R : A -> A -> Prop).

Lemma StronglySorted_skipn n l :
  StronglySorted R l -> StronglySorted R (skipn n l).
Proof.
  revert l. induction n as [| n IH]; intros l Hs; [exact Hs |].
  destruct l as [| x l]; [exact Hs |].
  apply IH. now apply StronglySorted_inv in Hs.
Qed.

Lemma StronglySorted_firstn n l :
  StronglySorted R l -> StronglySorted R (firstn n l).
Proof.
  revert l. induction n as [| n IH]; intros l Hs; [constructor |].
  destruct l as [| x l]; [constructor |].
  apply StronglySorted_inv in Hs. destruct Hs as [Hs Hx].
  simpl. constructor; [now apply IH |].
  apply Forall_forall. intros y Hy. apply In_firstn in Hy.
  now apply (proj1 (Forall_forall _ _) Hx).
Qed.

Lemma StronglySorted_snoc l a :
  StronglySorted R l -> Forall (fun x => R x a) l ->
  StronglySorted R (l ++ [a]).
Proof.
  induction 1 as [| x l Hs IH Hx]; intros Ha; simpl.
  - constructor; constructor.
  - apply Forall_cons_iff in Ha. destruct Ha as [Hxa Ha].
    constructor; [now apply IH |].
    apply Forall_app. split; [exact Hx | now constructor].
Qed.

End Segments.

Lemma StronglySorted_rev {A} (R : A -> A -> Prop) l :
  StronglySorted R l -> StronglySorted (fun a b => R b a) (rev l).
Proof.
  induction 1 as [| x l Hs IH Hx]; simpl; [constructor |].
  apply StronglySorted_snoc; [exact IH |].
  apply Forall_forall. intros y Hy. apply in_rev in Hy.
  now apply (proj1 (Forall_forall _ _) Hx).
Qed.

(** X4: the rows of a page come in the order asked for, by [id]
    ascending when the request names no order; this holds for a
    negative page size too. *)
Theorem X4_page_is_ordered db now o log res :
  findDistribution db now o = (log, inr res) ->
  ordered_by (orderByColumn_of o) (orderByDirection_of o) (data res) /\
  (orderBy o = None -> ordered_by col_id asc (data res)).
Proof.
  intros H.
  assert (Ho : ordered_by (orderByColumn_of o) (orderByDirection_of o) (data res)).
  { destruct (findDistribution_inr _ _ _ _ _ H)
      as (team & w & _ & _ & _ & Ef & _).
    fold (orderByColumn_of o) (orderByDirection_of o) in Ef.
    unfold distributionStatement_findMany in Ef.
    destruct (negb (valid w) || (skip_of o <? 0)); [discriminate |].
    injection Ef as <-.
    pose proof (order_rows_ordered (orderByColumn_of o) (orderByDirection_of o)
                  (tiebreak db (skip_of o) (Js.default 10 (perPage o)))
                  (filter (matches (users db) w) (distributionStatements db)))
      as Hs.
    unfold ordered_by in *.
    destruct (0 <=? Js.default 10 (perPage o)).
    - now apply StronglySorted_firstn, StronglySorted_skipn.
    - apply StronglySorted_rev in Hs.
      apply (StronglySorted_skipn _ (Z.to_nat (skip_of o))) in Hs.
      apply (StronglySorted_firstn _ (Z.to_nat (- Js.default 10 (perPage o)))) in Hs.
      apply StronglySorted_rev in Hs. exact Hs. }
  split; [exact Ho |].
  intros E. unfold orderByColumn_of, orderByDirection_of in Ho.
  now rewrite E in Ho.
Qed.

(** X4 on the sample database: the two rows user 7 sees in team 3, the
    newest first. *)
Lemma X4_page_is_ordered_witness :
  exists log,
    findDistribution Sample.db Sample.now
      (set_orderBy (set_teamId (Sample.request 7) (Some 3))
                   (Some (mkOrderBy col_createdAt desc)))
    = (log, inr (mkResponse [Sample.row2; Sample.row3] 2 1 10 (Js.Int 1))) /\
    ordered_by col_createdAt desc [Sample.row2; Sample.row3].
Proof.
  assert (E : exists log,
      findDistribution Sample.db Sample.now
        (set_orderBy (set_teamId (Sample.request 7) (Some 3))
                     (Some (mkOrderBy col_createdAt desc))) =
      (log, inr (mkResponse [Sample.row2; Sample.row3] 2 1 10 (Js.Int 1)))).
  { eexists. vm_compute. reflexivity. }
  destruct E as [log E]. exists log. split; [exact E |].
  exact (proj1 (X4_page_is_ordered _ _ _ _ _ E)).
Defined.

(* ================================================================== *)
(** ** Walking the pages *)









(* ================================================================== *)
(** ** Requests that differ in one filter *)

Lemma valid_assign w k : valid (assign w k) = valid w && valid k.
Proof.
  destruct w; cbn [assign valid forallb]; rewrite ?andb_true_r; try reflexivity.
  rewrite forallb_app. cbn [forallb]. now rewrite andb_true_r.
Qed.

(** Of the parts of the filter only the caller's can be one the client
    refuses. *)
Lemma whereClause_facets_valid o team :
  valid (whereClause_facets o team) = valid (spread (where_ o)).
Proof.
  unfold whereClause_facets.
  assert (Hbase : valid (Obj [AND (whereAndClause o team)])
                  = valid (spread (where_ o))).
  { unfold whereAndClause, searchFilter, Filter, contains_key.
    cbn [valid forallb spread].
    destruct team as [team |]; [destruct (TeamPayload.teamEmail team) |];
      cbn [valid forallb]; now rewrite ?andb_true_r. }
  destruct (present (platformIds o)), (present (territoryIds o));
    rewrite ?valid_assign, Hbase; cbn [valid]; now rewrite ?andb_true_r.
Qed.

Lemma whereClause_matches_eq now o team w us r :
  whereClause now o team = ([], inr w) ->
  matches us w r = matches us (whereClause_facets o team) r && period_ok now o r.
Proof.
  unfold whereClause, period_ok, ret, throw.
  destruct (period o) as [p |].
  - destruct (Js.truthy p).
    + destruct (Js.parseInt (Js.replace_d_end p)) as [n |]; [| discriminate].
      intros E. injection E as <-. rewrite matches_assign. cbn [matches].
      now destruct (Luxon.toISO (startOfPeriod now n)).
    + intros E. injection E as <-. now rewrite andb_true_r.
  - intros E. injection E as <-. now rewrite andb_true_r.
Qed.

Lemma toISO_Some dt t : Luxon.toISO dt = Some t -> t = Luxon.ts dt.
Proof.
  unfold Luxon.toISO.
  destruct (_ && _); [now intros [= <-] | discriminate].
Qed.

(** For a filter the client accepts, the test of the period is the
    lower bound on [createdAt]. *)
Lemma period_ok_iff now o team w r :
  whereClause now o team = ([], inr w) -> valid w = true ->
  (period_ok now o r = true <-> period_accepts now o r).
Proof.
  intros Ew Hv. unfold period_ok, period_accepts.
  destruct (whereClause_inr _ _ _ _ _ Ew)
    as [_ [[_ [Hp | Hp]] | (p & n & Hp & Hne & Hn & ->)]]; rewrite Hp.
  - split; [intros _ p n E; discriminate E | reflexivity].
  - split; [intros _ p n E; injection E as <-; congruence | reflexivity].
  - destruct (assigned_bound_valid _ _ Hv) as (t & Eiso & _).
    destruct p as [| c p]; [congruence |]. cbn [Js.truthy].
    rewrite Hn, Eiso, (toISO_Some _ _ Eiso), Z.leb_le. split.
    + intros H p' n' E _ Hn'. injection E as <-.
      rewrite Hn in Hn'. now injection Hn' as <-.
    + intros H. now apply (H (String c p) n).
Qed.

Lemma findMany_skip db w skip take c d rows :
  distributionStatement_findMany db w skip take c d = inr rows -> 0 <= skip.
Proof.
  unfold distributionStatement_findMany.
  destruct (valid w); cbn [negb orb]; [| discriminate].
  destruct (skip <? 0) eqn:E; [discriminate |]. intros _.
  now apply Z.ltb_ge in E.
Qed.

Lemma filter_length_le {A} (f g : A -> bool) (l : list A) :
  (forall x, In x l -> f x = true -> g x = true) ->
  (List.length (filter f l) <= List.length (filter g l))%nat.
Proof.
  induction l as [| x l IH]; intros H; simpl; [lia |].
  assert (IH' := IH (fun y Hy => H y (or_intror Hy))).
  destruct (f x) eqn:Ef.
  - rewrite (H x (or_introl eq_refl) Ef). simpl. lia.
  - destruct (g x); simpl; lia.
Qed.

(** If a request returns, so does a request for the same team and the
    same offset whose filter is built, and accepted by the client,
    whenever the first one is; and if the second filter is the wider
    one, it counts at least as many rows and every row returned for the
    first satisfies it. *)
Lemma wider_request db now o1 o2 log1 res1 :
  findDistribution db now o1 = (log1, inr res1) ->
  resolve_team db o2 = resolve_team db o1 ->
  skip_of o2 = skip_of o1 ->
  (forall team w1,
      whereClause now o1 team = ([], inr w1) -> valid w1 = true ->
      exists w2, whereClause now o2 team = ([], inr w2) /\
                 valid w2 = true /\
                 forall r, matches (users db) w1 r = true ->
                           matches (users db) w2 r = true) ->
  exists log2 res2,
    findDistribution db now o2 = (log2, inr res2) /\
    count res1 <= count res2 /\
    exists w2, In (call_count w2) log2 /\
               forall r, In r (data res1) -> In r (matching db w2).
Proof.
  intros H Hteam Hskip Hw.
  destruct (findDistribution_inr _ _ _ _ _ H)
    as (team & w1 & Ht & Ew1 & _ & Ef1 & Hc1 & _).
  destruct (Hw team w1 Ew1 (findMany_valid _ _ _ _ _ _ _ Ef1))
    as (w2 & Ew2 & Hv2 & Himp).
  rewrite <- Hteam in Ht.
  destruct (findMany_returns db w2 (skip_of o2) (Js.default 10 (perPage o2))
              (Js.default col_id (option_map column (orderBy o2)))
              (Js.default asc (option_map direction (orderBy o2))) Hv2)
    as [rows Ef2]; [rewrite Hskip; now apply findMany_skip in Ef1 |].
  destruct (findDistribution_returns _ _ _ _ _ _ Ht Ew2 Ef2)
    as (log2 & res2 & H2 & _).
  exists log2, res2. split; [exact H2 |].
  destruct (findDistribution_inr _ _ _ _ _ H2)
    as (team' & w2' & Ht' & Ew2' & Hlog2 & _ & Hc2 & _).
  rewrite Ht in Ht'. injection Ht' as <-.
  rewrite Ew2 in Ew2'. injection Ew2' as <-.
  split.
  - rewrite Hc1, Hc2. apply inj_le. unfold matching.
    apply filter_length_le. intros r _. apply Himp.
  - exists w2. split; [in_log Hlog2 |].
    intros r Hr. apply (findMany_sound _ _ _ _ _ _ _ Ef1) in Hr.
    apply matching_In in Hr. apply matching_In.
    split; [tauto | apply Himp; tauto].
Qed.

(** Building the filter succeeds or fails with the period alone. *)
Lemma whereClause_same_period now o1 o2 team w1 :
  period o2 = period o1 ->
  whereClause now o1 team = ([], inr w1) ->
  exists w2, whereClause now o2 team = ([], inr w2).
Proof.
  unfold whereClause, ret, throw. intros ->.
  destruct (period o1) as [p |]; [| eexists; reflexivity].
  destruct (Js.truthy p); [| eexists; reflexivity].
  destruct (Js.parseInt _); [eexists; reflexivity | discriminate].
Qed.

Lemma whereClause_valid_eq now o team w :
  whereClause now o team = ([], inr w) ->
  valid w = valid (spread (where_ o))
            && match period o with
               | Some p =>
                   if Js.truthy p then
                     match Js.parseInt (Js.replace_d_end p) with
                     | Some n =>
                         match Luxon.toISO (startOfPeriod now n) with
                         | Some _ => true
                         | None => false
                         end
                     | None => true
                     end
                   else true
               | None => true
               end.
Proof.
  unfold whereClause, ret, throw.
  destruct (period o) as [p |].
  - destruct (Js.truthy p).
    + destruct (Js.parseInt (Js.replace_d_end p)) as [n |]; [| discriminate].
      intros E. injection E as <-.
      rewrite valid_assign, whereClause_facets_valid. cbn [valid].
      now destruct (Luxon.toISO (startOfPeriod now n)).
    + intros E. injection E as <-.
      now rewrite whereClause_facets_valid, andb_true_r.
  - intros E. injection E as <-.
    now rewrite whereClause_facets_valid, andb_true_r.
Qed.

(** X5: the caller's [where] can only narrow a listing.  Every row
    returned satisfies it, and the same request without it returns as
    well, counts at least as many rows, and its filter accepts every
    row the narrower request returned. *)
Theorem X5_where_only_narrows db now o wh log res :
  findDistribution db now (set_where o (Some wh)) = (log, inr res) ->
  (forall r, In r (data res) -> matches (users db) wh r = true) /\
  exists log0 res0,
    findDistribution db now (set_where o None) = (log0, inr res0) /\
    count res <= count res0 /\
    exists w0, In (call_count w0) log0 /\
               forall r, In r (data res) -> In r (matching db w0).
Proof.
  intros H. split.
  - intros r Hr.
    destruct (findDistribution_data _ _ _ _ _ H) as (team & w & _ & Ew & Hd).
    destruct (Hd r Hr) as [_ Hm].
    now destruct (whereClause_parts _ _ _ _ _ _ Ew Hm) as (_ & _ & Hwh & _).
  - apply (wider_request db now (set_where o (Some wh)) (set_where o None) log res H);
      try reflexivity.
    intros team w1 Ew1 Hv1.
    destruct (whereClause_same_period now (set_where o (Some wh))
                (set_where o None) team w1 eq_refl Ew1) as [w2 Ew2].
    exists w2. split; [exact Ew2 |]. split.
    + rewrite (whereClause_valid_eq _ _ _ _ Ew1) in Hv1.
      rewrite (whereClause_valid_eq _ _ _ _ Ew2).
      cbn [set_where where_ period spread valid forallb] in *.
      rewrite !andb_true_iff in Hv1. now destruct Hv1 as [_ ->].
    + intros r.
      rewrite (whereClause_matches_eq _ _ _ _ _ r Ew1),
              (whereClause_matches_eq _ _ _ _ _ r Ew2),
              !whereClause_facets_matches.
      cbn [set_where query userId where_ platformIds territoryIds spread].
      change (period_ok now (set_where o (Some wh)) r) with (period_ok now o r).
      change (period_ok now (set_where o None) r) with (period_ok now o r).
      cbn [matches forallb]. rewrite !andb_true_r, !andb_true_iff. tauto.
Qed.

(** X5 on the sample database: user 7 in team 3, narrowed by the caller
    to rows created by user 7. *)
Lemma X5_where_only_narrows_witness :
  exists log,
    findDistribution Sample.db Sample.now
      (set_where (set_teamId (Sample.request 7) (Some 3))
                 (Some (Obj [userId_eq 7])))
    = (log, inr (mkResponse [Sample.row2] 1 1 10 (Js.Int 1))) /\
    forall r, In r [Sample.row2] ->
              matches (users Sample.db) (Obj [userId_eq 7]) r = true.
Proof.
  assert (E : exists log,
      findDistribution Sample.db Sample.now
        (set_where (set_teamId (Sample.request 7) (Some 3))
                   (Some (Obj [userId_eq 7]))) =
      (log, inr (mkResponse [Sample.row2] 1 1 10 (Js.Int 1)))).
  { eexists. vm_compute. reflexivity. }
  destruct E as [log E]. exists log. split; [exact E |].
  exact (proj1 (X5_where_only_narrows Sample.db Sample.now
                  (set_teamId (Sample.request 7) (Some 3)) _ _ _ E)).
Defined.

(** In a zone whose offset never changes, a longer period has an
    earlier bound. *)
Lemma startOfPeriod_antitone now n m :
  (forall t, Luxon.zone now t = Luxon.o now) ->
  n <= m ->
  Luxon.ts (startOfPeriod now m) <= Luxon.ts (startOfPeriod now n).
Proof.
  intros Hz H. rewrite !(startOfPeriod_fixed now _ Hz).
  assert (Hd : 0 < Luxon.msPerDay) by reflexivity.
  assert (Hq : (Luxon.ts now - m * Luxon.msPerDay + Luxon.o now * 60 * 1000)
               / Luxon.msPerDay
               <= (Luxon.ts now - n * Luxon.msPerDay + Luxon.o now * 60 * 1000)
                  / Luxon.msPerDay).
  { apply Z.div_le_mono; [exact Hd | nia]. }
  nia.
Qed.

Lemma parsed_period_nonempty p n :
  Js.parseInt (Js.replace_d_end p) = Some n -> p <> "".
Proof. intros H ->. discriminate H. Qed.

(** X6: in a zone whose offset never changes, a period that parses to
    more days looks further back.  If the request returns for a period
    of [n1] days and for one of [n2 >= n1] days, the second count is at
    least the first and the second filter accepts every row returned
    for the first; and the request without a period returns as well,
    with a count that is at least the second. *)
Theorem X6_longer_period_sees_more db now o p1 p2 n1 n2 log1 res1 log2 res2 :
  (forall t, Luxon.zone now t = Luxon.o now) ->
  findDistribution db now (set_period o (Some p1)) = (log1, inr res1) ->
  findDistribution db now (set_period o (Some p2)) = (log2, inr res2) ->
  Js.parseInt (Js.replace_d_end p1) = Some n1 ->
  Js.parseInt (Js.replace_d_end p2) = Some n2 ->
  n1 <= n2 ->
  count res1 <= count res2 /\
  (exists w2, In (call_count w2) log2 /\
              forall r, In r (data res1) -> In r (matching db w2)) /\
  exists log0 res0,
    findDistribution db now (set_period o None) = (log0, inr res0) /\
    count res2 <= count res0.
Proof.
  intros Hz H1 H2 Hn1 Hn2 Hle.
  pose proof (parsed_period_nonempty _ _ Hn1) as Hp1.
  pose proof (parsed_period_nonempty _ _ Hn2) as Hp2.
  destruct (findDistribution_inr _ _ _ _ _ H1)
    as (team & w1 & Ht1 & Ew1 & _ & Ef1 & Hc1 & _).
  destruct (findDistribution_inr _ _ _ _ _ H2)
    as (team' & w2 & Ht2 & Ew2 & Hlog2 & Ef2 & Hc2 & _).
  change (resolve_team db (set_period o (Some p2)))
    with (resolve_team db (set_period o (Some p1))) in Ht2.
  rewrite Ht1 in Ht2. injection Ht2 as <-.
  rewrite (whereClause_parsed now (set_period o (Some p1)) team p1 n1
             eq_refl Hp1 Hn1) in Ew1.
  rewrite (whereClause_parsed now (set_period o (Some p2)) team p2 n2
             eq_refl Hp2 Hn2) in Ew2.
  injection Ew1 as <-. injection Ew2 as <-.
  destruct (assigned_bound_valid _ _ (findMany_valid _ _ _ _ _ _ _ Ef1))
    as (t1 & E1 & Hb1).
  destruct (assigned_bound_valid _ _ (findMany_valid _ _ _ _ _ _ _ Ef2))
    as (t2 & E2 & _).
  pose proof (toISO_Some _ _ E1) as Et1. pose proof (toISO_Some _ _ E2) as Et2.
  pose proof (startOfPeriod_antitone now n1 n2 Hz Hle) as Hmono.
  assert (Himp : forall r,
             matches (users db)
               (assign (whereClause_facets (set_period o (Some p1)) team)
                       (createdAt_gte (Luxon.toISO (startOfPeriod now n1)))) r = true ->
             matches (users db)
               (assign (whereClause_facets (set_period o (Some p2)) team)
                       (createdAt_gte (Luxon.toISO (startOfPeriod now n2)))) r = true).
  { intros r Hm. pose proof (Hb1 _ _ Hm) as Hge.
    rewrite matches_assign in Hm |- *. apply andb_true_iff in Hm.
    destruct Hm as [Hm _]. apply andb_true_iff. split; [exact Hm |].
    rewrite E2. cbn [matches]. apply Z.leb_le. lia. }
  split; [| split].
  - rewrite Hc1, Hc2. apply inj_le. unfold matching.
    apply filter_length_le. intros r _. apply Himp.
  - eexists. split; [in_log Hlog2 |].
    intros r Hr. apply (findMany_sound _ _ _ _ _ _ _ Ef1) in Hr.
    apply matching_In in Hr. apply matching_In.
    split; [tauto | apply Himp; tauto].
  - destruct (wider_request db now (set_period o (Some p2)) (set_period o None)
                log2 res2 H2 eq_refl eq_refl) as (log0 & res0 & H0 & Hc0 & _).
    { intros team0 w Ew Hv.
      rewrite (whereClause_parsed now (set_period o (Some p2)) team0 p2 n2
                 eq_refl Hp2 Hn2) in Ew.
      injection Ew as <-.
      exists (whereClause_facets (set_period o None) team0).
      split; [reflexivity |].
      rewrite valid_assign in Hv. apply andb_true_iff in Hv.
      split; [exact (proj1 Hv) |].
      intros r. rewrite matches_assign, andb_true_iff.
      change (whereClause_facets (set_period o (Some p2)) team0)
        with (whereClause_facets (set_period o None) team0).
      tauto. }
    exists log0, res0. split; assumption.
Qed.

(** X6 on the sample database, which runs in UTC: user 7 in team 3
    sees one row for '7d' and two for '200d'. *)
Lemma X6_longer_period_sees_more_witness :
  (forall t, Luxon.zone Sample.now t = Luxon.o Sample.now) /\
  Js.parseInt (Js.replace_d_end "7d") = Some 7 /\
  Js.parseInt (Js.replace_d_end "200d") = Some 200 /\
  7 <= 200 /\
  exists log1 log2,
    findDistribution Sample.db Sample.now
      (set_period (set_teamId (Sample.request 7) (Some 3)) (Some "7d"))
    = (log1, inr (mkResponse [Sample.row2] 1 1 10 (Js.Int 1))) /\
    findDistribution Sample.db Sample.now
      (set_period (set_teamId (Sample.request 7) (Some 3)) (Some "200d"))
    = (log2, inr (mkResponse [Sample.row2; Sample.row3] 2 1 10 (Js.Int 1))) /\
    1 <= 2.
Proof.
  split; [reflexivity |]. split; [reflexivity |]. split; [reflexivity |].
  split; [discriminate |].
  assert (E1 : exists log1,
      findDistribution Sample.db Sample.now
        (set_period (set_teamId (Sample.request 7) (Some 3)) (Some "7d")) =
      (log1, inr (mkResponse [Sample.row2] 1 1 10 (Js.Int 1)))).
  { eexists. vm_compute. reflexivity. }
  assert (E2 : exists log2,
      findDistribution Sample.db Sample.now
        (set_period (set_teamId (Sample.request 7) (Some 3)) (Some "200d")) =
      (log2, inr (mkResponse [Sample.row2; Sample.row3] 2 1 10 (Js.Int 1)))).
  { eexists. vm_compute. reflexivity. }
  destruct E1 as [log1 E1]. destruct E2 as [log2 E2].
  exists log1, log2. split; [exact E1 |]. split; [exact E2 |].
  exact (proj1 (X6_longer_period_sees_more Sample.db Sample.now
                  (set_teamId (Sample.request 7) (Some 3)) "7d" "200d" 7 200
                  _ _ _ _ (fun _ => eq_refl) E1 E2 eq_refl eq_refl
                  ltac:(discriminate))).
Defined.

(** X7: a page number of 1 or less (zero, a negative number) is served
    as the first page: the storage calls and the outcome, the reported
    [currentPage] included, are those of the request without a page. *)
Theorem X7_page_clamped_to_first db now o pg :
  page o = Some pg -> pg <= 1 ->
  findDistribution db now o = findDistribution db now (set_page o None) /\
  forall log res, findDistribution db now o = (log, inr res) ->
                  currentPage res = 1.
Proof.
  intros Hp Hle.
  assert (E : findDistribution db now o = findDistribution db now (set_page o None)).
  { unfold findDistribution.
    change (resolve_team db (set_page o None)) with (resolve_team db o).
    cbn [set_page page perPage orderBy]. rewrite Hp. cbn [Js.default].
    replace (Z.max (pg - 1) 0) with (Z.max (1 - 1) 0) by lia.
    replace (Z.max pg 1) with (Z.max 1 1) by lia.
    reflexivity. }
  split; [exact E |].
  intros log res H.
  destruct (findDistribution_inr _ _ _ _ _ H) as (_ & _ & _ & _ & _ & _ & _ & Hc & _).
  rewrite Hc, Hp. cbn [Js.default]. lia.
Qed.

(** X7 on the sample database: page -4 of user 7. *)
Lemma X7_page_clamped_to_first_witness :
  page (set_page (Sample.request 7) (Some (-4))) = Some (-4) /\ -4 <= 1 /\
  findDistribution Sample.db Sample.now (set_page (Sample.request 7) (Some (-4)))
  = findDistribution Sample.db Sample.now
      (set_page (set_page (Sample.request 7) (Some (-4))) None).
Proof.
  split; [reflexivity |]. split; [discriminate |].
  exact (proj1 (X7_page_clamped_to_first Sample.db Sample.now
                  (set_page (Sample.request 7) (Some (-4))) (-4)
                  eq_refl ltac:(discriminate))).
Defined.

Lemma ci_substring_empty s : ci_substring "" s.
Proof. exists "", (Pg.lower s). reflexivity. Qed.

(** X8: a query, even the empty one, is no neutral filter: a row whose
    seven searched columns are all NULL is never returned when a query
    is given, and the empty query accepts exactly the rows that have a
    value in at least one of those columns. *)
Theorem X8_query_needs_a_value db now o q log res :
  query o = Some q ->
  findDistribution db now o = (log, inr res) ->
  (forall r, In r (data res) ->
             exists f, In f searched_fields /\
                       DistributionStatement.text r f <> None) /\
  (q = "" ->
   forall us r,
     matches us (searchFilter (query o)) r = true <->
     exists f, In f searched_fields /\ DistributionStatement.text r f <> None).
Proof.
  intros Hq H. split.
  - intros r Hr.
    destruct (findDistribution_data _ _ _ _ _ H) as (team & w & _ & Ew & Hd).
    destruct (Hd r Hr) as [_ Hm].
    destruct (whereClause_parts _ _ _ _ _ _ Ew Hm) as (Hs & _).
    rewrite Hq in Hs. now apply searchFilter_value in Hs.
  - intros -> us r. rewrite Hq, (searchFilter_iff us "" r eq_refl). split.
    + intros (f & s & Hf & Hs & _). exists f. split; [exact Hf | congruence].
    + intros (f & Hf & Hs).
      destruct (DistributionStatement.text r f) as [s |] eqn:E; [| congruence].
      exists f, s. repeat split; try assumption. apply ci_substring_empty.
Qed.

(** X8 on the sample database: the listing page of user 7. *)
Lemma X8_query_needs_a_value_witness :
  query (Sample.request 7) = Some "" /\
  exists log,
    findDistribution Sample.db Sample.now (Sample.request 7)
    = (log, inr (mkResponse [Sample.row1] 1 1 10 (Js.Int 1))) /\
    forall r, In r [Sample.row1] ->
              exists f, In f searched_fields /\
                        DistributionStatement.text r f <> None.
Proof.
  split; [reflexivity |].
  assert (E : exists log,
      findDistribution Sample.db Sample.now (Sample.request 7) =
      (log, inr (mkResponse [Sample.row1] 1 1 10 (Js.Int 1)))).
  { eexists. vm_compute. reflexivity. }
  destruct E as [log E]. exists log. split; [exact E |].
  exact (proj1 (X8_query_needs_a_value Sample.db Sample.now (Sample.request 7)
                  "" _ _ eq_refl E)).
Defined.

(* ================================================================== *)
(** ** Queries that differ in case *)

Lemma searchFilter_case us q1 q2 r :
  Js.toLowerCase q1 = Js.toLowerCase q2 ->
  matches us (searchFilter (Some q1)) r = matches us (searchFilter (Some q2)) r.
Proof.
  intros H. rewrite !searchFilter_exists. cbn [existsb matches].
  destruct r as [i u t c text ps ts]. cbn [DistributionStatement.text].
  repeat match goal with
         | |- context [text ?f] => destruct (text f)
         end;
    now rewrite ?(contains_case q1 q2 _ H).
Qed.

(** Filters that accept the same rows list and count the same rows. *)
Lemma listing_ext db w1 w2 skip take c d :
  valid w1 = valid w2 ->
  (forall r, matches (users db) w1 r = matches (users db) w2 r) ->
  distributionStatement_findMany db w1 skip take c d =
  distributionStatement_findMany db w2 skip take c d /\
  matching db w1 = matching db w2.
Proof.
  intros Hv H. unfold distributionStatement_findMany, matching.
  now rewrite Hv, (filter_ext _ _ H).
Qed.

Lemma whereClause_facets_query_valid o team q1 q2 :
  valid (whereClause_facets (set_query o (Some q1)) team) =
  valid (whereClause_facets (set_query o (Some q2)) team).
Proof. now rewrite !whereClause_facets_valid. Qed.

Lemma whereClause_facets_query us o team q1 q2 r :
  Js.toLowerCase q1 = Js.toLowerCase q2 ->
  matches us (whereClause_facets (set_query o (Some q1)) team) r =
  matches us (whereClause_facets (set_query o (Some q2)) team) r.
Proof.
  intros H. rewrite !whereClause_facets_matches.
  cbn [set_query query userId where_ platformIds territoryIds].
  now rewrite (searchFilter_case us q1 q2 r H).
Qed.

(** The outcome of a call, step by step: the error of the first step
    that fails, or the page built from the listing and the count. *)
Lemma findDistribution_outcome db now o :
  snd (findDistribution db now o) =
  match snd (resolve_team db o) with
  | inl e => inl e
  | inr team =>
      match snd (whereClause now o team) with
      | inl e => inl e
      | inr w =>
          match distributionStatement_findMany db w (skip_of o) (perPage_of o)
                  (orderByColumn_of o) (orderByDirection_of o) with
          | inl e => inl e
          | inr rows =>
              inr {| data := rows;
                     count := Z.of_nat (List.length (matching db w));
                     currentPage := Z.max (page_of o) 1;
                     res_perPage := perPage_of o;
                     totalPages :=
                       Js.Math_ceil_div (Z.of_nat (List.length (matching db w)))
                                        (perPage_of o) |}
          end
      end
  end.
Proof.
  unfold findDistribution, skip_of, perPage_of, page_of, orderByColumn_of,
    orderByDirection_of, bind, Promise_all, issue, ret.
  destruct (resolve_team db o) as [l1 [e | team]]; [reflexivity |].
  cbn [snd].
  destruct (whereClause now o team) as [l2 [e | w]]; [reflexivity |].
  cbn [fst snd].
  destruct (distributionStatement_findMany db w _ _ _ _) as [e | rows] eqn:Ef;
    [reflexivity |].
  now rewrite (count_valid db w (findMany_valid _ _ _ _ _ _ _ Ef)).
Qed.

Lemma whereClause_query_case now o team q1 q2 :
  Js.toLowerCase q1 = Js.toLowerCase q2 ->
  match snd (whereClause now (set_query o (Some q1)) team),
        snd (whereClause now (set_query o (Some q2)) team) with
  | inl e1, inl e2 => e1 = e2
  | inr w1, inr w2 =>
      valid w1 = valid w2 /\ forall us r, matches us w1 r = matches us w2 r
  | _, _ => False
  end.
Proof.
  intros H. unfold whereClause, ret, throw. cbn [set_query period].
  destruct (period o) as [p |].
  - destruct (Js.truthy p).
    + destruct (Js.parseInt (Js.replace_d_end p)) as [n |]; cbn [snd];
        [| reflexivity].
      split.
      * rewrite !valid_assign.
        now rewrite (whereClause_facets_query_valid o team q1 q2).
      * intros us r. rewrite !matches_assign.
        now rewrite (whereClause_facets_query us o team q1 q2 r H).
    + cbn [snd]. split; [apply whereClause_facets_query_valid |].
      intros us r. now apply whereClause_facets_query.
  - cbn [snd]. split; [apply whereClause_facets_query_valid |].
    intros us r. now apply whereClause_facets_query.
Qed.

(** X9: two queries that differ only in the case of their letters give
    the same outcome: the same rows, count and pages, or the same
    error. *)
Theorem X9_query_case_ignored db now o q1 q2 :
  Js.toLowerCase q1 = Js.toLowerCase q2 ->
  snd (findDistribution db now (set_query o (Some q1))) =
  snd (findDistribution db now (set_query o (Some q2))).
Proof.
  intros H. rewrite !findDistribution_outcome.
  change (resolve_team db (set_query o (Some q1))) with (resolve_team db o).
  change (resolve_team db (set_query o (Some q2))) with (resolve_team db o).
  destruct (snd (resolve_team db o)) as [e | team]; [reflexivity |].
  pose proof (whereClause_query_case now o team q1 q2 H) as Hw.
  destruct (snd (whereClause now (set_query o (Some q1)) team)) as [e1 | w1],
           (snd (whereClause now (set_query o (Some q2)) team)) as [e2 | w2];
    try contradiction.
  - now rewrite Hw.
  - destruct Hw as [Hv Hw].
    destruct (listing_ext db w1 w2 (skip_of (set_query o (Some q1)))
                (perPage_of (set_query o (Some q1)))
                (orderByColumn_of (set_query o (Some q1)))
                (orderByDirection_of (set_query o (Some q1)))
                Hv (Hw (users db))) as [Ef Ec].
    rewrite Ef, Ec. reflexivity.
Qed.

(** X9 on the sample database: [ISRC] and [isrc]. *)
Lemma X9_query_case_ignored_witness :
  Js.toLowerCase "ISRC" = Js.toLowerCase "isrc" /\
  snd (findDistribution Sample.db Sample.now
         (set_query (Sample.request 7) (Some "ISRC"))) =
  snd (findDistribution Sample.db Sample.now
         (set_query (Sample.request 7) (Some "isrc"))).
Proof.
  split; [reflexivity |].
  exact (X9_query_case_ignored Sample.db Sample.now (Sample.request 7)
           "ISRC" "isrc" eq_refl).
Defined.

(* ================================================================== *)
(** ** What is counted *)

Lemma facet_platform_iff us o r :
  (if present (platformIds o)
   then matches us (platforms_some_in (Js.default [] (platformIds o))) r
   else true) = true <->
  (forall ids, platformIds o = Some ids -> ids <> [] -> has_platform_in ids r).
Proof.
  destruct (platformIds o) as [[| x l] |]; cbn [present Js.default List.length].
  - split; [intros _ ids E; injection E as <-; congruence | reflexivity].
  - change (0 <? Z.of_nat (S (List.length l))) with true. cbv iota.
    rewrite platforms_some_in_iff. split.
    + intros H ids E _. now injection E as <-.
    + intros H. apply (H (x :: l) eq_refl). discriminate.
  - split; [intros _ ids E; discriminate | reflexivity].
Qed.

Lemma facet_territory_iff us o r :
  (if present (territoryIds o)
   then matches us (territories_some_in (Js.default [] (territoryIds o))) r
   else true) = true <->
  (forall ids, territoryIds o = Some ids -> ids <> [] -> has_territory_in ids r).
Proof.
  destruct (territoryIds o) as [[| x l] |]; cbn [present Js.default List.length].
  - split; [intros _ ids E; injection E as <-; congruence | reflexivity].
  - change (0 <? Z.of_nat (S (List.length l))) with true. cbv iota.
    rewrite territories_some_in_iff. split.
    + intros H ids E _. now injection E as <-.
    + intros H. apply (H (x :: l) eq_refl). discriminate.
  - split; [intros _ ids E; discriminate | reflexivity].
Qed.

(** X10: the listing and the count are asked with one filter; the page
    is the answer of the listing, cut from the rows that satisfy the
    filter, and the count is their number.  These rows are exactly the
    rows of the table that pass the search, the tenant filter, the
    caller's [where], each facet given with a non-empty array and the
    bound of the period: the filter asks for all of them and for
    nothing else. *)
Theorem X10_counted_rows_exactly db now o log res :
  findDistribution db now o = (log, inr res) ->
  exists team w,
    snd (resolve_team db o) = inr team /\
    log = fst (resolve_team db o) ++
          [ call_findMany w (skip_of o) (perPage_of o)
                          (orderByColumn_of o) (orderByDirection_of o);
            call_count w ] /\
    distributionStatement_findMany db w (skip_of o) (perPage_of o)
      (orderByColumn_of o) (orderByDirection_of o) = inr (data res) /\
    (forall r, In r (data res) -> In r (matching db w)) /\
    count res = Z.of_nat (List.length (matching db w)) /\
    forall r,
      In r (matching db w) <->
      In r (distributionStatements db) /\
      matches (users db) (searchFilter (query o)) r = true /\
      matches (users db) (Filter team (userId o)) r = true /\
      matches (users db) (spread (where_ o)) r = true /\
      (forall ids, platformIds o = Some ids -> ids <> [] ->
                   has_platform_in ids r) /\
      (forall ids, territoryIds o = Some ids -> ids <> [] ->
                   has_territory_in ids r) /\
      period_accepts now o r.
Proof.
  intros H.
  destruct (findDistribution_inr _ _ _ _ _ H)
    as (team & w & Ht & Ew & Hlog & Ef & Hc & _).
  exists team, w. split; [exact Ht |]. split; [exact Hlog |].
  split; [exact Ef |].
  split; [exact (findMany_sound _ _ _ _ _ _ _ Ef) |].
  split; [exact Hc |].
  intros r. rewrite matching_In.
  rewrite (whereClause_matches_eq _ _ _ _ (users db) r Ew),
          whereClause_facets_matches, !andb_true_iff,
          facet_platform_iff, facet_territory_iff,
          (period_ok_iff _ _ _ _ r Ew (findMany_valid _ _ _ _ _ _ _ Ef)).
  tauto.
Qed.

(** X10 on the sample database: user 9 lists team 4 with a query, a
    filter of the caller, a platform and a period; row 4 passes every
    part, is counted and is on the page. *)
Lemma X10_counted_rows_exactly_witness :
  exists log res,
    findDistribution Sample.db Sample.now Sample.busy_request = (log, inr res) /\
    exists w,
      In (call_count w) log /\ In Sample.row4 (matching Sample.db w) /\
      forall r, In r (data res) -> In r (matching Sample.db w).
Proof.
  assert (E : exists log,
      findDistribution Sample.db Sample.now Sample.busy_request =
      (log, inr (mkResponse [Sample.row4] 1 1 10 (Js.Int 1)))).
  { eexists. vm_compute. reflexivity. }
  destruct E as [log E].
  exists log, (mkResponse [Sample.row4] 1 1 10 (Js.Int 1)).
  split; [exact E |].
  destruct (X10_counted_rows_exactly _ _ _ _ _ E)
    as (team & w & Ht & Hlog & _ & Hd & _ & Hiff).
  assert (Eteam : team = Some (TeamPayload.mk 4 None ["MEMBER"])).
  { vm_compute in Ht. now injection Ht as <-. }
  subst team.
  exists w. split; [in_log Hlog |]. split; [| exact Hd].
  apply Hiff.
  split; [simpl; auto |].
  split; [reflexivity |]. split; [reflexivity |]. split; [reflexivity |].
  split.
  { intros ids Hids _. injection Hids as <-.
    exists (Sample.platform 5). split; simpl; auto. }
  split; [intros ids Hids; discriminate Hids |].
  intros p n Hp _ Hn. injection Hp as <-.
  vm_compute in Hn. injection Hn as <-.
  vm_compute. discriminate.
Defined.

(* ================================================================== *)
(** ** Members *)

Lemma find_finds {A} (f : A -> bool) (l : list A) (x : A) :
  In x l -> f x = true -> exists y, find f l = Some y.
Proof.
  induction l as [| z l IH]; intros Hin Hf; [contradiction |].
  simpl. destruct (f z) eqn:E; [now exists z |].
  destruct Hin as [-> | Hin]; [congruence | now apply IH].
Qed.

(** X11: membership is all the team step asks for.  When the requested
    team exists and the requester is among its members, the lookup
    yields that team, with the role the requester has in it, and the
    call is not rejected as not found. *)
Theorem X11_member_admitted db now o tid t :
  teamId o = Some tid ->
  In t (teams db) -> Team.id t = tid -> is_member (userId o) t = true ->
  (exists team,
      team_findFirstOrThrow db tid (userId o) = inr team /\
      TeamPayload.id team = tid /\ TeamPayload.members team <> []) /\
  snd (findDistribution db now o) <> inl NotFoundError.
Proof.
  intros Hteam Hin Hid Hmem.
  assert (Hfound : exists team,
             team_findFirstOrThrow db tid (userId o) = inr team /\
             TeamPayload.id team = tid /\ TeamPayload.members team <> []).
  { unfold team_findFirstOrThrow.
    destruct (find_finds
                (fun t0 => (Team.id t0 =? tid) && is_member (userId o) t0)
                (teams db) t Hin) as [t' E].
    { rewrite Hmem, andb_true_r. now apply Z.eqb_eq. }
    rewrite E. apply find_some in E. destruct E as [_ E].
    apply andb_true_iff in E. destruct E as [Eid Em].
    eexists. split; [reflexivity |]. cbn [TeamPayload.id TeamPayload.members].
    split; [now apply Z.eqb_eq |].
    unfold is_member in Em. apply existsb_exists in Em.
    destruct Em as (m & Hm & Eu).
    intros Hnil. apply map_eq_nil in Hnil.
    assert (Hf : In m (filter (fun m0 => TeamMember.userId m0 =? userId o)
                              (Team.members t'))).
    { apply filter_In. now split. }
    rewrite Hnil in Hf. contradiction. }
  split; [exact Hfound |].
  destruct Hfound as (team & Et & _).
  rewrite findDistribution_outcome, (resolve_team_Some db o tid Hteam), Et.
  cbn [snd].
  destruct (whereClause now o (Some team)) as [l [e | w]] eqn:Ew; cbn [snd].
  - revert Ew. unfold whereClause, ret, throw.
    destruct (period o) as [p |]; [| discriminate].
    destruct (Js.truthy p); [| discriminate].
    destruct (Js.parseInt _); [discriminate |].
    intros E. injection E as _ <-. discriminate.
  - unfold distributionStatement_findMany.
    destruct (negb (valid w) || (skip_of o <? 0)); discriminate.
Qed.

(** X11 on the sample database: user 9 is a member of team 4. *)
Lemma X11_member_admitted_witness :
  teamId (set_teamId (Sample.request 9) (Some 4)) = Some 4 /\
  is_member 9 (Team.mk 4 None [TeamMember.mk 9 "MEMBER"]) = true /\
  exists team,
    team_findFirstOrThrow Sample.db 4 9 = inr team /\
    TeamPayload.id team = 4 /\ TeamPayload.members team <> [].
Proof.
  split; [reflexivity |]. split; [reflexivity |].
  exact (proj1 (X11_member_admitted Sample.db Sample.now
                  (set_teamId (Sample.request 9) (Some 4)) 4
                  (Team.mk 4 None [TeamMember.mk 9 "MEMBER"])
                  eq_refl (or_intror (or_introl eq_refl)) eq_refl eq_refl)).
Defined.
